(** * Multilayered data processing: the recursive layer engine

    A shallow embedding of the two designs of the repository,
    [dataprocessor/one_strategy_per_layer_type.py] and
    [dataprocessor/configuration_based_strategy.py], and the properties
    of their classification functions and of the recursive walk
    [ConcreteProcessor._process].

    Python objects are modelled as records, classes as entries of a class
    table (name, base class, methods with their [@abstractmethod] mark),
    exceptions as an error result, and the interpreter state that the
    code reads or writes (files, the random source behind [uuid4], the
    sequence of calls made so far) as an explicit world threaded through a
    state-and-exception monad. *)

From Stdlib Require Import List Ascii String ZArith NArith Bool Lia.
Import ListNotations.
Open Scope string_scope.
Open Scope list_scope.

Set Implicit Arguments.

(** ** Decoded documents

    What [json.loads] returns: [None], [bool], [int], [float], [str],
    [list] and [dict].  A [dict] keeps its items in insertion order, which
    is the order [dict.items()] iterates in; no function of the repository
    looks inside a number, so a float is kept as its literal. *)

#[warnings="-register-all"]
Inductive json : Type :=
| JNull
| JBool (b : bool)
| JInt (z : Z)
| JFloat (literal : string)
| JStr (s : string)
| JList (elems : list json)
| JDict (items : list (string * json)).

(** [type(value) is dict] *)
Definition type_is_dict (value : json) : bool :=
  match value with
  | JDict _ => true
  | _ => false
  end.

(** [key in d] for a dict [d] given by its items. *)
Definition dict_contains (key : string) (items : list (string * json)) : bool :=
  existsb (fun kv => String.eqb key (fst kv)) items.

(** ** Exceptions, calls and the interpreter state *)

Definition trace_id := N.

(** [InvalidInputException] is the exception the docstring of
    [validate] announces.  No file of the repository declares or imports
    a class of that name: the constructor stands for the exception a
    validator would raise were there one, and the [except] clause that
    names it raises [NameError] (see [load_global] below). *)
Inductive exn : Type :=
| TypeError
| AttributeError
| NameError
| RecursionError
| OSError
| JSONDecodeError
| InvalidInputException
| SystemExit (code : Z).

(** The calls a run makes, in order.  [Call_ConcreteProcessor] is the
    constructor call [ConcreteProcessor(trace_id, layer_data)] with its
    arguments, [Call_process_data] the call of [process_data] on a
    processor, with that processor's [_trace_id] and [_data];
    [Invoke cls m] is a call of method [m] of a strategy, transformer,
    notifier or storage class [cls]. *)
Inductive event : Type :=
| Call_uuid4 (result : trace_id)
| Call_ConcreteProcessor (tid : trace_id) (layer_data : json)
| Call_process_data (tid : trace_id) (layer_data : json)
| Invoke (cls method : string).

Record world : Type := World {
  trace : list event;            (* calls made so far *)
  drawn : nat;                   (* how many uuids were drawn *)
  entropy : nat -> trace_id;     (* the random source of uuid4 *)
  files : string -> option string  (* path -> content *)
}.

Inductive outcome (A : Type) : Type :=
| Ok (a : A)
| Raise (e : exn).
Arguments Ok {A} a.
Arguments Raise {A} e.

Definition Py (A : Type) : Type := world -> outcome A * world.

Definition ret {A} (a : A) : Py A := fun w => (Ok a, w).

Definition raise {A} (e : exn) : Py A := fun w => (Raise e, w).

Definition bind {A B} (m : Py A) (k : A -> Py B) : Py B :=
  fun w =>
    match m w with
    | (Ok a, w') => k a w'
    | (Raise e, w') => (Raise e, w')
    end.

Declare Scope py_scope.
Delimit Scope py_scope with py.
Notation "x <- m ;; k" := (bind m (fun x => k))
  (at level 61, m at next level, right associativity) : py_scope.
Notation "m ;; k" := (bind m (fun _ => k))
  (at level 61, right associativity) : py_scope.
Open Scope py_scope.

Definition record_calls (w : world) (evs : list event) : world :=
  {| trace := trace w ++ evs; drawn := drawn w;
     entropy := entropy w; files := files w |}.

Definition log (e : event) : Py unit :=
  fun w => (Ok tt, record_calls w [e]).

(** [uuid4()]: the next value of the random source. *)
Definition uuid4 : Py trace_id :=
  fun w =>
    let u := entropy w (drawn w) in
    (Ok u, {| trace := trace w ++ [Call_uuid4 u]; drawn := S (drawn w);
              entropy := entropy w; files := files w |}).

(** Running [m] as the body of a [try]: its outcome is handed over
    instead of raised. *)
Definition try_block {A} (m : Py A) : Py (outcome A) :=
  fun w => let '(r, w') := m w in (Ok r, w').

(** [exit(code)] raises [SystemExit]. *)
Definition exit {A} (code : Z) : Py A := raise (SystemExit code).

(** ** Classes and the abstract-method check

    A class of the source: its name, its base class among the classes of
    the repository ([None] when it derives from [ABC] or [object] only)
    and the methods its body defines, each with its [@abstractmethod]
    mark. *)

Record method : Type := Method { mname : string; mabstract : bool }.

#[warnings="-register-all"]
Inductive class : Type :=
| Class (cname : string) (base : option class) (methods : list method).

Definition class_name (c : class) : string :=
  match c with Class n _ _ => n end.

Definition own_method (ms : list method) (name : string) : option method :=
  find (fun m => String.eqb name (mname m)) ms.

(** Attribute lookup on the class, along the chain of base classes. *)
Fixpoint class_attr (c : class) (name : string) : option method :=
  match c with
  | Class _ b ms =>
      match own_method ms name with
      | Some m => Some m
      | None =>
          match b with
          | Some b' => class_attr b' name
          | None => None
          end
      end
  end.

Definition still_abstract (c : class) (name : string) : bool :=
  match class_attr c name with
  | Some m => mabstract m
  | None => false
  end.

(** [__abstractmethods__] as [ABCMeta] computes it: the abstract methods
    of the class body, then those of the base class that the class still
    resolves to an abstract method. *)
Fixpoint abstractmethods (c : class) : list string :=
  match c with
  | Class _ b ms =>
      let own := map mname (filter mabstract ms) in
      let inherited :=
        match b with
        | Some b' => abstractmethods b'
        | None => []
        end in
      own ++ filter (fun n => still_abstract c n
                              && negb (existsb (String.eqb n) own)) inherited
  end.

(** [object.__new__(cls)]: refuses a class that still has abstract
    methods. *)
Definition object_new (c : class) : Py unit :=
  match abstractmethods c with
  | [] => ret tt
  | _ :: _ => raise TypeError
  end.

(** [obj.name] for an instance of [c] whose [__init__] set the attributes
    [instance_attrs]: found on the instance or on the class. *)
Definition hasattr (instance_attrs : list string) (c : class) (name : string) : bool :=
  existsb (String.eqb name) instance_attrs
  || match class_attr c name with Some _ => true | None => false end.

(** Evaluating [obj.name] and going on with [k] when the attribute is
    found. *)
Definition with_attr {A} (instance_attrs : list string) (c : class)
           (name : string) (k : Py A) : Py A :=
  if hasattr instance_attrs c name then k else raise AttributeError.

(** ** Names bound at module level

    A name used in a function body is looked up when the line runs, among
    the names its module binds and then the builtins.  Both files import
    the same five names and bind nothing but their classes. *)

Definition imported_names : list string :=
  ["io"; "json"; "ABC"; "abstractmethod"; "uuid4"].

(** The classes of [one_strategy_per_layer_type.py]. *)
Definition one_strategy_per_layer_type_classes : list string :=
  ["AbstractProcessor"; "AbstractAddressStrategy"; "BaseAddressStrategy";
   "DefaultAddressStrategy"; "StreetAddressStrategy"; "AvenueAddressStrategy";
   "AddressProcessor"; "StrategyResolver"; "ConcreteProcessor"; "Driver"].

(** The classes of [configuration_based_strategy.py]. *)
Definition configuration_based_strategy_classes : list string :=
  ["AbstractProcessor"; "AbstractStrategy"; "AbstractTransformer";
   "RuleBasedTransformer"; "ReflectiveTransformer"; "AbstractNotifier";
   "NullNotifier"; "EmailNotifier"; "MessageQueueNotifier"; "AbstractStorage";
   "StoreToS3"; "StoreToFile"; "StoreToDB"; "TransformerFactory";
   "NotifierFactory"; "StorageFactory"; "ConcreteStrategy"; "ConcreteProcessor";
   "Driver"].

(** The names bound at module level in one file or the other. *)
Definition module_names : list string :=
  imported_names ++ one_strategy_per_layer_type_classes
  ++ configuration_based_strategy_classes.

(** Evaluating a name that is no builtin: [NameError] unless a module
    binds it. *)
Definition load_global (name : string) : Py unit :=
  if existsb (String.eqb name) module_names then ret tt else raise NameError.

(** [AbstractProcessor], which both files define in the same words. *)
Definition AbstractProcessor_cls : class :=
  Class "AbstractProcessor" None
    [ Method "__init__" false;
      Method "_process" true;
      Method "_notify" false;
      Method "_undo_process" true;
      Method "process_data" false ].

(** ** The recursive engine

    [ConcreteProcessor._process] is the same text in both files, up to the
    name of the attribute that holds the strategy.  It is written once
    here, over what differs between the files or depends on the class
    table:
    - [ConcreteProcessor tid node], the constructor call;
    - [is_independent_of_children p], the attribute chain read in the
      [try] body ([p.strategy_obj.is_independent_of_children], or
      [p.strategy. ...]);
    - [stop_on_failure p] and [notify p], the attribute chain and the
      call of the [except] body.
    Each design instantiates them below. *)

Module Engine.

Section Body.

(** What [__init__] stores next to [_trace_id] and [_data]. *)
Variable S : Type.

Record processor : Type := {
  _trace_id : trace_id;
  _data : json;
  strategy_attr : S
}.

Variable ConcreteProcessor : trace_id -> json -> Py processor.
Variable is_independent_of_children : processor -> Py bool.
Variable stop_on_failure : processor -> Py bool.
Variable notify : processor -> Py unit.

(** [self._data.items()]: only a [dict] has the method. *)
Definition dict_items (d : json) : Py (list (string * json)) :=
  match d with
  | JDict items => ret items
  | _ => raise AttributeError
  end.

(** The first loop of [_process]: the values that are dicts, appended
    in iteration order. *)
Fixpoint layer_nodes (items : list (string * json)) : list json :=
  match items with
  | [] => []
  | (field, value) :: rest =>
      if type_is_dict value then value :: layer_nodes rest
      else layer_nodes rest
  end.

(** The [try] body for one [layer_node].  It hands over its outcome
    instead of raising, together with the value the variable
    [processor_obj] holds when it ends: the assignment happens only once
    the constructor has returned. *)
Definition try_body (process_data : processor -> Py unit) (self : processor)
           (layer_node : json) (processor_obj : option processor)
  : Py (outcome unit * option processor) :=
  created <- try_block (log (Call_ConcreteProcessor (_trace_id self) layer_node) ;;
                  ConcreteProcessor (_trace_id self) layer_node) ;;
  match created with
  | Raise e => ret (Raise e, processor_obj)
  | Ok p =>
      r <- try_block (independent <- is_independent_of_children p ;;
                (if independent : bool then ret tt (* pass *) else ret tt) ;;
                process_data p) ;;
      ret (r, Some p)
  end.

(** The body of [except InvalidInputException:]. *)
Definition except_body (processor_obj : option processor) : Py unit :=
  match processor_obj with
  | None => raise AttributeError
  | Some p =>
      stop <- stop_on_failure p ;;
      if stop : bool then notify p ;; exit (-1) else ret tt
  end.

(** What follows the [try] body: nothing after a normal end.  When an
    exception ends it, the clause [except InvalidInputException:] first
    evaluates the name it matches against; with the name bound, the
    [except] body would run for an [InvalidInputException] and any other
    exception would leave the loop.  Neither file binds the name, so the
    evaluation raises [NameError] in place of the exception, whichever it
    is. *)
Definition after_try (r : outcome unit) (processor_obj : option processor) : Py unit :=
  match r with
  | Ok _ => ret tt
  | Raise e =>
      load_global "InvalidInputException" ;;
      match e with
      | InvalidInputException => except_body processor_obj
      | _ => raise e
      end
  end.

(** The second loop of [_process]. *)
Fixpoint for_layer_nodes (process_data : processor -> Py unit) (self : processor)
         (nodes : list json) (processor_obj : option processor) : Py unit :=
  match nodes with
  | [] => ret tt
  | layer_node :: rest =>
      tried <- try_body process_data self layer_node processor_obj ;;
      after_try (fst tried) (snd tried) ;;
      for_layer_nodes process_data self rest (snd tried)
  end.

Definition _process (process_data : processor -> Py unit) (self : processor) : Py unit :=
  items <- dict_items (_data self) ;;
  for_layer_nodes process_data self (layer_nodes items) None.

(** [process_data], which calls [_process].  [depth] is the number of
    frames the interpreter still allows below the caller's when
    [process_data] is called.  Each nested layer takes two of them: one
    for [process_data] and one for the [_process] it calls, whose loop
    calls [process_data] of the child.  A call for which no frame is left
    raises [RecursionError].  The calls the engine does not follow into
    (the constructor, the attribute reads) are given as computations,
    and have returned by the time the next frame is entered. *)
Fixpoint process_data (depth : nat) (self : processor) : Py unit :=
  match depth with
  | O => raise RecursionError
  | Datatypes.S O =>
      log (Call_process_data (_trace_id self) (_data self)) ;;
      raise RecursionError   (* no frame left for [self._process()] *)
  | Datatypes.S (Datatypes.S depth') =>
      log (Call_process_data (_trace_id self) (_data self)) ;;
      _process (process_data depth') self
  end.

(** [Driver.get_content_from_file] *)
Definition get_content_from_file (file_path : string) : Py string :=
  fun w =>
    match files w file_path with
    | Some content => (Ok content, w)
    | None => (Raise OSError, w)
    end.

(** [json.loads], given by the decoder [decode] of the standard
    library. *)
Variable decode : string -> option json.

Definition json_loads (content : string) : Py json :=
  match decode content with
  | Some v => ret v
  | None => raise JSONDecodeError
  end.

(** [Driver.main]; [depth] is the number of frames left below that of
    [main] when it calls [process_data]. *)
Definition main (depth : nat) (file_path : string) : Py unit :=
  content <- get_content_from_file file_path ;;
  layer_data <- json_loads content ;;
  trace_id <- uuid4 ;;
  log (Call_ConcreteProcessor trace_id layer_data) ;;
  processor_obj <- ConcreteProcessor trace_id layer_data ;;
  process_data depth processor_obj.

End Body.

End Engine.

(** ** Layers as the classification functions read them *)

(** Modelled from the spec: the class of layer objects, which no file of
    the repository declares.  The factories and the resolver read
    [.field_name] and [.data] of their argument; a layer is a name and a
    mapping of field names to values. *)
Record Layer : Type := { field_name : string; data : list (string * json) }.

(** [layer_data.field_name] and [layer_data.data] on a value decoded by
    [json.loads] (a [dict], for a nested layer): decoded values have
    neither attribute. *)
Definition as_layer (layer_data : json) : Py Layer := raise AttributeError.

(** ** Design 1: one strategy class per layer type *)

Module OneStrategyPerLayerType.

Inductive strategy_class : Type :=
| StreetAddressStrategy
| AvenueAddressStrategy
| DefaultAddressStrategy.

(** [StrategyResolver.get_strategy]: the class it returns; [None] is
    Python's [None], which a call returns when no [return] statement
    is reached. *)
Definition get_strategy (field_name : string) (data : list (string * json))
  : option strategy_class :=
  if String.eqb field_name "address" then
    if dict_contains "street" data then Some StreetAddressStrategy
    else if dict_contains "avenue" data then Some AvenueAddressStrategy
    else Some DefaultAddressStrategy
  else None.

(** The two attributes [BaseAddressStrategy.__init__] sets. *)
Record strategy : Type := {
  is_independent_of_children : bool;
  stop_on_failure : bool
}.

(** [BaseAddressStrategy.__init__(stop_on_failure=True,
    is_independent_of_children=False)] *)
Definition BaseAddressStrategy_init (stop_on_failure is_independent_of_children : bool)
  : strategy :=
  {| is_independent_of_children := is_independent_of_children;
     stop_on_failure := stop_on_failure |}.

(** An instance of each class, built with no argument:
    [StreetAddressStrategy.__init__] passes its own flags to the base
    class, the two others inherit the defaults. *)
Definition new_strategy (c : strategy_class) : strategy :=
  match c with
  | StreetAddressStrategy => BaseAddressStrategy_init false true
  | AvenueAddressStrategy => BaseAddressStrategy_init true false
  | DefaultAddressStrategy => BaseAddressStrategy_init true false
  end.

Definition AbstractAddressStrategy_cls : class :=
  Class "AbstractAddressStrategy" None
    [ Method "validate" true; Method "process" false; Method "store" false ].

Definition BaseAddressStrategy_cls : class :=
  Class "BaseAddressStrategy" (Some AbstractAddressStrategy_cls)
    [ Method "__init__" false; Method "validate" false;
      Method "process" false; Method "store" false ].

Definition class_of (c : strategy_class) : class :=
  match c with
  | StreetAddressStrategy =>
      Class "StreetAddressStrategy" (Some BaseAddressStrategy_cls)
        [ Method "__init__" false; Method "validate" false; Method "process" false ]
  | AvenueAddressStrategy =>
      Class "AvenueAddressStrategy" (Some BaseAddressStrategy_cls)
        [ Method "validate" false; Method "process" false ]
  | DefaultAddressStrategy =>
      Class "DefaultAddressStrategy" (Some BaseAddressStrategy_cls)
        [ Method "process" false ]
  end.

(** The [validate] bodies: [BaseAddressStrategy.validate] is [pass],
    the street and avenue ones call it through [super()], the default
    class inherits it. *)
Definition BaseAddressStrategy_validate : Py unit :=
  log (Invoke "BaseAddressStrategy" "validate").

Definition validate (c : strategy_class) : Py unit :=
  match c with
  | StreetAddressStrategy =>
      log (Invoke "StreetAddressStrategy" "validate") ;; BaseAddressStrategy_validate
  | AvenueAddressStrategy =>
      log (Invoke "AvenueAddressStrategy" "validate") ;; BaseAddressStrategy_validate
  | DefaultAddressStrategy => BaseAddressStrategy_validate
  end.

Definition ConcreteProcessor_cls : class :=
  Class "ConcreteProcessor" (Some AbstractProcessor_cls)
    [ Method "__init__" false; Method "_process" false ].

(** The attributes an instance of [ConcreteProcessor] carries once
    [__init__] has run. *)
Definition processor_attrs : list string := ["_trace_id"; "_data"; "strategy_obj"].

(** [ConcreteProcessor.__init__]: the base class stores the two
    arguments, then the strategy is resolved from
    [layer_data.field_name] and [layer_data.data]. *)
Definition ConcreteProcessor_init (trace_id : trace_id) (layer_data : json)
  : Py (Engine.processor (option strategy_class)) :=
  l <- as_layer layer_data ;;
  ret {| Engine._trace_id := trace_id; Engine._data := layer_data;
         Engine.strategy_attr := get_strategy (field_name l) (data l) |}.

(** [ConcreteProcessor(trace_id, layer_data)] *)
Definition ConcreteProcessor (trace_id : trace_id) (layer_data : json)
  : Py (Engine.processor (option strategy_class)) :=
  object_new ConcreteProcessor_cls ;;
  ConcreteProcessor_init trace_id layer_data.

(** [strategy_obj.name] used as a condition.  [strategy_obj] is what
    [get_strategy] returned, a class or [None]; the two flags are set on
    instances by [__init__], so the class itself has only its methods
    (a function is a true condition). *)
Definition strategy_obj_attr (strategy_obj : option strategy_class) (name : string)
  : Py bool :=
  match strategy_obj with
  | None => raise AttributeError
  | Some c =>
      match class_attr (class_of c) name with
      | Some _ => ret true
      | None => raise AttributeError
      end
  end.

(** [processor_obj.strategy_obj.is_independent_of_children] *)
Definition read_is_independent_of_children (p : Engine.processor (option strategy_class))
  : Py bool :=
  with_attr processor_attrs ConcreteProcessor_cls "strategy_obj"
    (strategy_obj_attr (Engine.strategy_attr p) "is_independent_of_children").

(** [processor_obj.strategy_obj.stop_on_failure] *)
Definition read_stop_on_failure (p : Engine.processor (option strategy_class)) : Py bool :=
  with_attr processor_attrs ConcreteProcessor_cls "strategy_obj"
    (strategy_obj_attr (Engine.strategy_attr p) "stop_on_failure").

(** [processor_obj.notify()] *)
Definition call_notify (p : Engine.processor (option strategy_class)) : Py unit :=
  with_attr processor_attrs ConcreteProcessor_cls "notify" (ret tt).

Definition process_data : nat -> Engine.processor (option strategy_class) -> Py unit :=
  Engine.process_data ConcreteProcessor read_is_independent_of_children
    read_stop_on_failure call_notify.

Definition main (decode : string -> option json) : nat -> string -> Py unit :=
  Engine.main ConcreteProcessor read_is_independent_of_children
    read_stop_on_failure call_notify decode.

End OneStrategyPerLayerType.

(** ** Design 2: strategy assembled from configuration

    In the file as committed [AbstractStorage.remove] is an
    [@abstractmethod] whose [def] line has no body; it is taken as the
    abstract method it is declared to be. *)

Module ConfigurationBasedStrategy.

Inductive transformer_class : Type := RuleBasedTransformer | ReflectiveTransformer.
Inductive notifier_class : Type := NullNotifier | EmailNotifier | MessageQueueNotifier.
Inductive storage_class : Type := StoreToS3 | StoreToFile | StoreToDB.

(** [x in ('a', 'b', ...)] *)
Definition in_tuple (x : string) (t : list string) : bool :=
  existsb (String.eqb x) t.

(** [TransformerFactory.get_transformer] *)
Definition get_transformer (data : Layer) : transformer_class :=
  if in_tuple (field_name data) ["address"; "transaction"]
  then RuleBasedTransformer
  else ReflectiveTransformer.

(** [NotifierFactory.get_notifier] *)
Definition get_notifier (data : Layer) : notifier_class :=
  if in_tuple (field_name data) ["address"] then EmailNotifier
  else if in_tuple (field_name data) ["location"; "transaction"] then MessageQueueNotifier
  else NullNotifier.

(** [StorageFactory.get_storage] *)
Definition get_storage (data : Layer) : storage_class :=
  if in_tuple (field_name data) ["address"] then StoreToS3
  else if in_tuple (field_name data) ["location"; "transaction"] then StoreToDB
  else StoreToFile.

Definition AbstractTransformer_cls : class :=
  Class "AbstractTransformer" None
    [ Method "validate" true; Method "transform" true ].

Definition AbstractNotifier_cls : class :=
  Class "AbstractNotifier" None [ Method "notify" true ].

Definition AbstractStorage_cls : class :=
  Class "AbstractStorage" None [ Method "store" true; Method "remove" true ].

Definition AbstractStrategy_cls : class :=
  Class "AbstractStrategy" None
    [ Method "validate" true; Method "process" false; Method "store" false ].

Definition transformer_cls (t : transformer_class) : class :=
  match t with
  | RuleBasedTransformer =>
      Class "RuleBasedTransformer" (Some AbstractTransformer_cls)
        [ Method "validate" false; Method "transform" false ]
  | ReflectiveTransformer =>
      Class "ReflectiveTransformer" (Some AbstractTransformer_cls)
        [ Method "validate" false; Method "transform" false ]
  end.

Definition notifier_cls (n : notifier_class) : class :=
  match n with
  | NullNotifier =>
      Class "NullNotifier" (Some AbstractNotifier_cls) [ Method "notify" false ]
  | EmailNotifier =>
      Class "EmailNotifier" (Some AbstractNotifier_cls) [ Method "notify" false ]
  | MessageQueueNotifier =>
      Class "MessageQueueNotifier" (Some AbstractNotifier_cls) [ Method "notify" false ]
  end.

(** The three storage classes have an empty body ([pass]). *)
Definition storage_cls (s : storage_class) : class :=
  match s with
  | StoreToS3 => Class "StoreToS3" (Some AbstractStorage_cls) []
  | StoreToFile => Class "StoreToFile" (Some AbstractStorage_cls) []
  | StoreToDB => Class "StoreToDB" (Some AbstractStorage_cls) []
  end.

Definition ConcreteStrategy_cls : class :=
  Class "ConcreteStrategy" (Some AbstractStrategy_cls)
    [ Method "__init__" false; Method "validate" false;
      Method "process" false; Method "store" false ].

(** The attributes [ConcreteStrategy.__init__] sets. *)
Record ConcreteStrategy : Type := {
  is_independent_of_children : bool;
  stop_on_failure : bool;
  transformer : transformer_class;
  storage_handler : storage_class;
  notifier_obj : notifier_class
}.

(** [ConcreteStrategy(data, stop_on_failure=True,
    is_independent_of_children=False)]: each factory returns a class,
    which [__init__] instantiates at once. *)
Definition ConcreteStrategy_new (data : Layer)
           (stop_on_failure is_independent_of_children : bool) : Py ConcreteStrategy :=
  object_new ConcreteStrategy_cls ;;
  let t := get_transformer data in
  object_new (transformer_cls t) ;;
  let s := get_storage data in
  object_new (storage_cls s) ;;
  let n := get_notifier data in
  object_new (notifier_cls n) ;;
  ret {| is_independent_of_children := is_independent_of_children;
         stop_on_failure := stop_on_failure;
         transformer := t; storage_handler := s; notifier_obj := n |}.

(** The [validate] bodies: both transformers' are [pass], and
    [ConcreteStrategy.validate] calls its transformer's. *)
Definition transformer_validate (t : transformer_class) : Py unit :=
  match t with
  | RuleBasedTransformer => log (Invoke "RuleBasedTransformer" "validate")
  | ReflectiveTransformer => log (Invoke "ReflectiveTransformer" "validate")
  end.

Definition validate (s : ConcreteStrategy) : Py unit :=
  log (Invoke "ConcreteStrategy" "validate") ;; transformer_validate (transformer s).

Definition ConcreteProcessor_cls : class :=
  Class "ConcreteProcessor" (Some AbstractProcessor_cls)
    [ Method "__init__" false; Method "_process" false ].

Definition processor_attrs : list string := ["_trace_id"; "_data"; "strategy"].

(** [ConcreteProcessor.__init__]: the base class stores the two
    arguments, then [ConcreteStrategy(layer_data)] is built, whose
    factories read [layer_data.field_name]. *)
Definition ConcreteProcessor_init (trace_id : trace_id) (layer_data : json)
  : Py (Engine.processor ConcreteStrategy) :=
  l <- as_layer layer_data ;;
  s <- ConcreteStrategy_new l true false ;;
  ret {| Engine._trace_id := trace_id; Engine._data := layer_data; Engine.strategy_attr := s |}.

(** [ConcreteProcessor(trace_id, layer_data)] *)
Definition ConcreteProcessor (trace_id : trace_id) (layer_data : json)
  : Py (Engine.processor ConcreteStrategy) :=
  object_new ConcreteProcessor_cls ;;
  ConcreteProcessor_init trace_id layer_data.

(** [processor_obj.strategy.is_independent_of_children] *)
Definition read_is_independent_of_children (p : Engine.processor ConcreteStrategy) : Py bool :=
  with_attr processor_attrs ConcreteProcessor_cls "strategy"
    (ret (is_independent_of_children (Engine.strategy_attr p))).

(** [processor_obj.strategy_obj.stop_on_failure]: the [except] body
    names the attribute [strategy_obj]. *)
Definition read_stop_on_failure (p : Engine.processor ConcreteStrategy) : Py bool :=
  with_attr processor_attrs ConcreteProcessor_cls "strategy_obj"
    (ret (stop_on_failure (Engine.strategy_attr p))).

(** [processor_obj.notify()] *)
Definition call_notify (p : Engine.processor ConcreteStrategy) : Py unit :=
  with_attr processor_attrs ConcreteProcessor_cls "notify" (ret tt).

Definition process_data : nat -> Engine.processor ConcreteStrategy -> Py unit :=
  Engine.process_data ConcreteProcessor read_is_independent_of_children
    read_stop_on_failure call_notify.

Definition main (decode : string -> option json) : nat -> string -> Py unit :=
  Engine.main ConcreteProcessor read_is_independent_of_children
    read_stop_on_failure call_notify decode.

End ConfigurationBasedStrategy.


(** ** Vocabulary of the statements *)

(** The children of a layer as the specification words them: the direct
    fields whose value is a layer, and, for a direct field whose value is
    a sequence, each layer the sequence contains. *)
Definition layers_of_value (value : json) : list json :=
  match value with
  | JDict _ => [value]
  | JList elems => filter type_is_dict elems
  | _ => []
  end.

Definition spec_child_layers (items : list (string * json)) : list json :=
  flat_map (fun fv => layers_of_value (snd fv)) items.

Definition is_sequence (value : json) : bool :=
  match value with
  | JList _ => true
  | _ => false
  end.

(** A call made by the loop of the engine on behalf of trace identifier
    [tid]: a constructor call passing [tid] and a dict, or
    [process_data] on a processor that holds [tid]. *)
Definition engine_call (tid : trace_id) (e : event) : Prop :=
  match e with
  | Call_ConcreteProcessor t node => t = tid /\ type_is_dict node = true
  | Call_process_data t _ => t = tid
  | Call_uuid4 _ => False
  | Invoke _ _ => False
  end.

(** [f] makes no recorded call. *)
Definition quiet {A B} (f : A -> Py B) : Prop :=
  forall x w, trace (snd (f x w)) = trace w.

(** [f] never ends by raising [e]. *)
Definition never_raises {A B} (e : exn) (f : A -> Py B) : Prop :=
  forall x w, fst (f x w) <> Raise e.

(** [f] raises neither [InvalidInputException] nor [SystemExit]. *)
Definition no_failure_signal {A B} (f : A -> Py B) : Prop :=
  never_raises InvalidInputException f /\ forall code, never_raises (SystemExit code) f.

(** A constructor that stores the trace identifier it is given, as
    [AbstractProcessor.__init__] does. *)
Definition stores_trace_id {S} (construct : trace_id -> json -> Py (Engine.processor S)) : Prop :=
  forall tid node w p w', construct tid node w = (Ok p, w') -> Engine._trace_id p = tid.

(** [traced tid m]: whatever the state it starts in, [m] only adds calls
    the engine makes on behalf of [tid] to the record. *)
Definition traced {A} (tid : trace_id) (m : Py A) : Prop :=
  forall w, exists evs,
    trace (snd (m w)) = trace w ++ evs /\ Forall (engine_call tid) evs.

(** Inputs on which the statements are exercised: an interpreter state
    with an empty document, and the documents of the two failure
    scenarios with the text of their files. *)
Module Exercise.

Definition empty_world : world :=
  {| trace := []; drawn := 0; entropy := fun n => N.of_nat (n + 7);
     files := fun path =>
       if String.eqb path "doc.json" then Some "{}" else None |}.

(** The double quote of a JSON text. *)
Definition quote : string := String "034"%char EmptyString.

Definition quoted (s : string) : string := String.append quote (String.append s quote).

(** [{"transaction": {"amount": -1}}] *)
Definition rejected_amount : json := JDict [("amount", JInt (-1))].
Definition transaction_document : json := JDict [("transaction", rejected_amount)].
Definition transaction_text : string :=
  String.concat EmptyString
    ["{"; quoted "transaction"; ": {"; quoted "amount"; ": -1}}"].

(** [{"address": {"street": ""}, "location": {"lat": 1}}] *)
Definition empty_street : json := JDict [("street", JStr EmptyString)].
Definition location : json := JDict [("lat", JInt 1)].
Definition address_document : json :=
  JDict [("address", empty_street); ("location", location)].
Definition address_text : string :=
  String.concat EmptyString
    ["{"; quoted "address"; ": {"; quoted "street"; ": "; quoted EmptyString; "}, ";
     quoted "location"; ": {"; quoted "lat"; ": 1}}"].

(** What [json.loads] returns on the two texts. *)
Definition decode (content : string) : option json :=
  if String.eqb content transaction_text then Some transaction_document
  else if String.eqb content address_text then Some address_document
  else None.


End Exercise.

(** ** [AddressProcessor] (first design)

    The other processor of [one_strategy_per_layer_type.py].  Its
    [__init__] resolves a strategy class from the layer object, and
    [_validate] and [_process] call that class with the layer as the one
    positional argument. *)

Module AddressProcessing.

Import OneStrategyPerLayerType.

Definition AddressProcessor_cls : class :=
  Class "AddressProcessor" (Some AbstractProcessor_cls)
    [ Method "__init__" false; Method "_validate" false; Method "_process" false ].

(** What [__init__] leaves in the object: the two arguments and the
    class [get_strategy] returned ([None] when it returned nothing). *)
Record processor : Type := {
  _trace_id : trace_id;
  _data : Layer;
  strategy : option strategy_class
}.

Definition AddressProcessor_init (trace_id : trace_id) (layer_data : Layer) : processor :=
  {| _trace_id := trace_id; _data := layer_data;
     strategy := get_strategy (field_name layer_data) (data layer_data) |}.

(** [AddressProcessor(trace_id, layer_data)] *)
Definition AddressProcessor (trace_id : trace_id) (layer_data : Layer) : Py processor :=
  object_new AddressProcessor_cls ;;
  ret (AddressProcessor_init trace_id layer_data).

(** The value an instance holds in [stop_on_failure]: the flag the
    constructor was given, or whatever object was passed in its place. *)
Inductive flag_value : Type :=
| Flag (b : bool)
| Passed (l : Layer).

Record instance : Type := {
  instance_class : strategy_class;
  instance_is_independent_of_children : bool;
  instance_stop_on_failure : flag_value
}.

(** [self.strategy(self._data)]: the class is called with one positional
    argument.  [None] is not callable; [StreetAddressStrategy.__init__]
    takes no argument besides [self]; the two other classes inherit
    [BaseAddressStrategy.__init__(self, stop_on_failure=True,
    is_independent_of_children=False)], which binds the argument to
    [stop_on_failure]. *)
Definition call_strategy (strategy : option strategy_class) (arg : Layer) : Py instance :=
  match strategy with
  | None => raise TypeError
  | Some StreetAddressStrategy => raise TypeError
  | Some c =>
      object_new (class_of c) ;;
      ret {| instance_class := c;
             instance_is_independent_of_children := false;
             instance_stop_on_failure := Passed arg |}
  end.

(** The [process] bodies: [BaseAddressStrategy.process] and
    [DefaultAddressStrategy.process] are [pass], the street and avenue
    ones call the base one through [super()]. *)
Definition BaseAddressStrategy_process : Py unit :=
  log (Invoke "BaseAddressStrategy" "process").

Definition process (c : strategy_class) : Py unit :=
  match c with
  | StreetAddressStrategy =>
      log (Invoke "StreetAddressStrategy" "process") ;; BaseAddressStrategy_process
  | AvenueAddressStrategy =>
      log (Invoke "AvenueAddressStrategy" "process") ;; BaseAddressStrategy_process
  | DefaultAddressStrategy => log (Invoke "DefaultAddressStrategy" "process")
  end.

(** [AddressProcessor._validate] *)
Definition _validate (self : processor) : Py unit :=
  s <- call_strategy (strategy self) (_data self) ;;
  validate (instance_class s).

(** [AddressProcessor._process] *)
Definition _process (self : processor) : Py unit :=
  s <- call_strategy (strategy self) (_data self) ;;
  process (instance_class s).

End AddressProcessing.

(** ** [file_parsing_stats.py]

    The timing script.  A time is a float; no arithmetic on it matters
    below, so the type of times and their difference are left open.  The
    clock is the sequence of values successive calls of [time()] return.
    What a [print] shows is a function of the path and of the two lists
    of samples at that moment; a report keeps these instead of the
    text. *)

Module FileParsingStats.

Section Script.

Variable T : Type.
Variable minus : T -> T -> T.
Variable decode : string -> option json.

Inductive script_error : Type :=
| FileNotFoundError
| DecodeError
| ZeroDivisionError.

Inductive report : Type :=
| ReadReport (file_path : string) (read_stats : list T)
| ParsingReport (file_path : string) (parsing_stats : list T).

Record machine : Type := {
  disk : string -> option string;  (* path -> content *)
  clock : nat -> T;                (* the n-th value of time() *)
  ticks : nat;                     (* calls of time() so far *)
  opened : list string;            (* files opened so far *)
  printed : list report            (* reports printed so far *)
}.

Definition tick (m : machine) : T * machine :=
  (clock m (ticks m),
   {| disk := disk m; clock := clock m; ticks := Datatypes.S (ticks m);
      opened := opened m; printed := printed m |}).

Definition open (file_path : string) (m : machine) : machine :=
  {| disk := disk m; clock := clock m; ticks := ticks m;
     opened := opened m ++ [file_path]; printed := printed m |}.

Definition print (r : report) (m : machine) : machine :=
  {| disk := disk m; clock := clock m; ticks := ticks m;
     opened := opened m; printed := printed m ++ [r] |}.

(** [process_json_file] *)
Definition process_json_file (file_path : string) (m : machine)
  : (script_error + T * T) * machine :=
  match disk m file_path with
  | None => (inl FileNotFoundError, m)
  | Some content =>
      let m := open file_path m in
      let '(start_time, m) := tick m in
      let '(read_finished_time, m) := tick m in
      match decode content with
      | None => (inl DecodeError, m)
      | Some json_obj =>
          let '(parsing_finished_time, m) := tick m in
          (inr (minus read_finished_time start_time,
                minus parsing_finished_time read_finished_time), m)
      end
  end.

Definition large_file : string := "../resources/large-file.json".
Definition small_file : string := "../resources/small-file.json".

(** [['../resources/large-file.json', '../resources/small-file.json'] *
    num_trials] *)
Definition file_paths (num_trials : nat) : list string :=
  List.concat (repeat [large_file; small_file] num_trials).

(** The inner loop, [for trial_num in range(num_trials)], from the
    samples gathered so far. *)
Fixpoint trials (remaining : nat) (read_stats parsing_stats : list T) (m : machine)
  : (script_error + list T * list T) * machine :=
  match remaining with
  | O => (inr (read_stats, parsing_stats), m)
  | Datatypes.S remaining' =>
      match process_json_file large_file m with
      | (inl e, m') => (inl e, m')
      | (inr (read_time, parsing_time), m') =>
          trials remaining' (read_stats ++ [read_time]) (parsing_stats ++ [parsing_time]) m'
      end
  end.

(** One [print] of an average, maximum and minimum: the average divides
    by the number of samples. *)
Definition print_stats (r : list T -> report) (stats : list T) (m : machine)
  : (script_error + unit) * machine :=
  match stats with
  | [] => (inl ZeroDivisionError, m)
  | _ :: _ => (inr tt, print (r stats) m)
  end.

(** The outer loop, [for file_path in file_paths]. *)
Fixpoint measure (num_trials : nat) (paths : list string)
         (read_stats parsing_stats : list T) (m : machine)
  : (script_error + list T * list T) * machine :=
  match paths with
  | [] => (inr (read_stats, parsing_stats), m)
  | file_path :: paths' =>
      match trials num_trials read_stats parsing_stats m with
      | (inl e, m1) => (inl e, m1)
      | (inr (read_stats', parsing_stats'), m1) =>
          match print_stats (ReadReport file_path) read_stats' m1 with
          | (inl e, m2) => (inl e, m2)
          | (inr _, m2) =>
              match print_stats (ParsingReport file_path) parsing_stats' m2 with
              | (inl e, m3) => (inl e, m3)
              | (inr _, m3) => measure num_trials paths' read_stats' parsing_stats' m3
              end
          end
      end
  end.

(** The body under [if __name__ == "__main__":], for a given
    [num_trials] (10 in the file). *)
Definition script (num_trials : nat) (m : machine)
  : (script_error + list T * list T) * machine :=
  measure num_trials (file_paths num_trials) [] [] m.

(** The path a report is labelled with, and how many samples it
    averages. *)
Definition report_path (r : report) : string :=
  match r with
  | ReadReport file_path _ => file_path
  | ParsingReport file_path _ => file_path
  end.

Definition report_size (r : report) : nat :=
  match r with
  | ReadReport _ stats => List.length stats
  | ParsingReport _ stats => List.length stats
  end.

End Script.

(** A machine with both files on disk and nothing done yet, times
    being counted in whole units. *)
Definition fresh_machine : machine nat :=
  {| disk := fun path =>
       if String.eqb path large_file then Some "[]"
       else if String.eqb path small_file then Some "{}"
       else None;
     clock := fun n => 10 * n;
     ticks := 0; opened := []; printed := [] |}.

End FileParsingStats.

(** * Properties *)

Unset Implicit Arguments.

(** ** Classification *)

Lemma dict_contains_In (key : string) (items : list (string * json)) :
  dict_contains key items = true <-> exists value, In (key, value) items.
Proof.
  unfold dict_contains. rewrite existsb_exists. split.
  - intros [[k v] [Hin Heq]]. simpl in Heq. apply String.eqb_eq in Heq.
    subst k. now exists v.
  - intros [v Hin]. exists (key, v). split; [assumption|].
    simpl. apply String.eqb_refl.
Qed.

Lemma dict_contains_not_In (key : string) (items : list (string * json)) :
  dict_contains key items = false <-> ~ exists value, In (key, value) items.
Proof.
  rewrite <- dict_contains_In. destruct (dict_contains key items); split;
    intros H; try reflexivity; try discriminate; try (intros H'; discriminate).
  exfalso. now apply H.
Qed.

Module OneStrategyFacts.

Import OneStrategyPerLayerType.

(** C5.  For a layer whose field name is ['address'] the resolver looks
    at the layer's own fields: a field named ['street'] selects the
    street strategy; failing that, a field named ['avenue'] selects the
    avenue strategy; failing both, the default address strategy is
    selected. *)
Theorem address_refined_by_child_fields (data : list (string * json)) :
  ((exists v, In ("street", v) data) ->
   get_strategy "address" data = Some StreetAddressStrategy)
  /\ (~ (exists v, In ("street", v) data) ->
      (exists v, In ("avenue", v) data) ->
      get_strategy "address" data = Some AvenueAddressStrategy)
  /\ (~ (exists v, In ("street", v) data) ->
      ~ (exists v, In ("avenue", v) data) ->
      get_strategy "address" data = Some DefaultAddressStrategy).
Proof.
  unfold get_strategy. simpl String.eqb. cbv iota.
  repeat split.
  - intros Hs. apply dict_contains_In in Hs. now rewrite Hs.
  - intros Hs Ha. apply dict_contains_not_In in Hs. apply dict_contains_In in Ha.
    now rewrite Hs, Ha.
  - intros Hs Ha. apply dict_contains_not_In in Hs. apply dict_contains_not_In in Ha.
    now rewrite Hs, Ha.
Qed.

(** C4.  The resolver of this design has no catch-all: it returns
    a strategy class exactly for the field name ['address'], and nothing
    ([None]) for every other field name, e.g. for the layer
    [{"amount": -1}] filed under ['transaction']. *)
Theorem get_strategy_defined_only_for_address :
  (forall field_name data, get_strategy field_name data = None <-> field_name <> "address")
  /\ get_strategy "transaction" [("amount", JInt (-1))] = None.
Proof.
  split; [|reflexivity].
  intros f d. unfold get_strategy.
  destruct (String.eqb_spec f "address") as [->|Hne].
  - split; [|intros H; now elim H].
    destruct (dict_contains "street" d); [discriminate|].
    destruct (dict_contains "avenue" d); discriminate.
  - split; [intros _; assumption | reflexivity].
Qed.

(** The resolver depends on the data only through the presence of the
    two field names it tests. *)
Lemma get_strategy_depends_on_presence (f : string) (d1 d2 : list (string * json)) :
  dict_contains "street" d1 = dict_contains "street" d2 ->
  dict_contains "avenue" d1 = dict_contains "avenue" d2 ->
  get_strategy f d1 = get_strategy f d2.
Proof.
  intros Hs Ha. unfold get_strategy. now rewrite Hs, Ha.
Qed.

End OneStrategyFacts.

Module ConfigurationFacts.

Import ConfigurationBasedStrategy.

(** The three factories end in an [else] branch: a field name none of
    the tuples lists gets the reflective transformer, the null notifier
    and the file storage. *)
Lemma factories_catch_all (l : Layer) :
  in_tuple (field_name l) ["address"; "transaction"; "location"] = false ->
  get_transformer l = ReflectiveTransformer
  /\ get_notifier l = NullNotifier
  /\ get_storage l = StoreToFile.
Proof.
  unfold in_tuple, get_transformer, get_notifier, get_storage, in_tuple. simpl.
  destruct (String.eqb (field_name l) "address");
    destruct (String.eqb (field_name l) "transaction");
    destruct (String.eqb (field_name l) "location"); simpl; try discriminate.
  intros _. repeat split.
Qed.

(** The factories read the field name only. *)
Lemma factories_depend_on_field_name (l1 l2 : Layer) :
  field_name l1 = field_name l2 ->
  get_transformer l1 = get_transformer l2
  /\ get_notifier l1 = get_notifier l2
  /\ get_storage l1 = get_storage l2.
Proof.
  intros H. unfold get_transformer, get_notifier, get_storage. now rewrite H.
Qed.

(** No storage class implements [store] and [remove], so none can be
    instantiated, and building a [ConcreteStrategy] fails there. *)
Lemma storage_classes_abstract (s : storage_class) :
  abstractmethods (storage_cls s) = ["store"; "remove"].
Proof. destruct s; reflexivity. Qed.

Lemma ConcreteStrategy_new_raises (l : Layer) (stop indep : bool) (w : world) :
  ConcreteStrategy_new l stop indep w = (Raise TypeError, w).
Proof.
  unfold ConcreteStrategy_new, bind, object_new.
  destruct (get_transformer l), (get_storage l); reflexivity.
Qed.

End ConfigurationFacts.

(** C7.  Classification and resolution are deterministic.  In the first
    design the class returned, and with it the flags of its instances,
    is fixed by the field name and by which of the two tested field names
    the layer has; in the second the transformer, notifier and storage
    classes are fixed by the field name, the flags are the constructor's
    defaults, and building the strategy twice, in whatever state of the
    interpreter, ends the same way (as the file is written, by the
    [TypeError] of the storage class, whose two methods stay abstract)
    and changes nothing. *)
Theorem classification_is_deterministic :
  (forall f d1 d2,
      dict_contains "street" d1 = dict_contains "street" d2 ->
      dict_contains "avenue" d1 = dict_contains "avenue" d2 ->
      OneStrategyPerLayerType.get_strategy f d1 = OneStrategyPerLayerType.get_strategy f d2
      /\ option_map OneStrategyPerLayerType.new_strategy (OneStrategyPerLayerType.get_strategy f d1)
         = option_map OneStrategyPerLayerType.new_strategy (OneStrategyPerLayerType.get_strategy f d2))
  /\ (forall l1 l2,
      field_name l1 = field_name l2 ->
      ConfigurationBasedStrategy.get_transformer l1 = ConfigurationBasedStrategy.get_transformer l2
      /\ ConfigurationBasedStrategy.get_notifier l1 = ConfigurationBasedStrategy.get_notifier l2
      /\ ConfigurationBasedStrategy.get_storage l1 = ConfigurationBasedStrategy.get_storage l2)
  /\ (forall l w1 w2,
      fst (ConfigurationBasedStrategy.ConcreteStrategy_new l true false w1)
      = fst (ConfigurationBasedStrategy.ConcreteStrategy_new l true false w2)
      /\ snd (ConfigurationBasedStrategy.ConcreteStrategy_new l true false w1) = w1).
Proof.
  split; [|split].
  - intros f d1 d2 Hs Ha.
    rewrite (OneStrategyFacts.get_strategy_depends_on_presence f d1 d2 Hs Ha).
    split; reflexivity.
  - exact ConfigurationFacts.factories_depend_on_field_name.
  - intros l w1 w2. rewrite !ConfigurationFacts.ConcreteStrategy_new_raises.
    split; reflexivity.
Qed.

(** ** The children queued by [_process] *)

Lemma layer_nodes_filter (items : list (string * json)) :
  Engine.layer_nodes items = map snd (filter (fun fv => type_is_dict (snd fv)) items).
Proof.
  induction items as [|[field value] rest IH]; simpl; [reflexivity|].
  destruct (type_is_dict value); simpl; now rewrite IH.
Qed.

Lemma spec_child_layers_without_sequences (items : list (string * json)) :
  spec_child_layers (filter (fun fv => negb (is_sequence (snd fv))) items)
  = Engine.layer_nodes items.
Proof.
  induction items as [|[field value] rest IH]; simpl; [reflexivity|].
  destruct value; simpl; rewrite <- ?IH; reflexivity.
Qed.

Lemma layer_nodes_all_dicts (items : list (string * json)) :
  Forall (fun node => type_is_dict node = true) (Engine.layer_nodes items).
Proof.
  induction items as [|[field value] rest IH]; simpl; [constructor|].
  destruct (type_is_dict value) eqn:E; [constructor|]; assumption.
Qed.

(** C6, as the code has it.  The layers queued for the recursion are
    exactly the values of the direct fields that are dicts, in the order
    of the fields: a value is queued if and only if it is a dict held by
    a direct field, and the queue is what the specification's
    enumeration gives once the fields holding a sequence are left out, so
    a sequence contributes no child. *)
Theorem layer_nodes_are_the_direct_dict_fields (items : list (string * json)) :
  (forall value, In value (Engine.layer_nodes items) <->
                 exists field, In (field, value) items /\ type_is_dict value = true)
  /\ Engine.layer_nodes items
     = spec_child_layers (filter (fun fv => negb (is_sequence (snd fv))) items)
  /\ (forall field elems, Engine.layer_nodes ((field, JList elems) :: items) = Engine.layer_nodes items).
Proof.
  split; [|split].
  - intros value. rewrite layer_nodes_filter, in_map_iff. split.
    + intros [[f v] [Heq Hin]]. simpl in Heq. subst v.
      apply filter_In in Hin. destruct Hin as [Hin Hd]. now exists f.
    + intros [f [Hin Hd]]. exists (f, value). split; [reflexivity|].
      apply filter_In. now split.
  - symmetry. apply spec_child_layers_without_sequences.
  - reflexivity.
Qed.

(** C6, as stated, fails: for the layer [{"items": [{"a": 1}]}] the
    specification's enumeration has the layer [{"a": 1}] as a child,
    and the code queues nothing. *)
Lemma layer_in_sequence_not_queued :
  let items := [("items", JList [JDict [("a", JInt 1)]])] in
  spec_child_layers items = [JDict [("a", JInt 1)]]
  /\ Engine.layer_nodes items = []
  /\ Engine.layer_nodes items <> spec_child_layers items.
Proof.
  simpl. repeat split. discriminate.
Qed.

(** ** Instantiating [ConcreteProcessor] *)

Lemma AbstractProcessor_abstractmethods :
  abstractmethods AbstractProcessor_cls = ["_process"; "_undo_process"].
Proof. reflexivity. Qed.

(** ** Sequencing *)

Lemma bind_Ok {A B} (m : Py A) (k : A -> Py B) (w w' : world) (a : A) :
  m w = (Ok a, w') -> bind m k w = k a w'.
Proof. intros H. unfold bind. now rewrite H. Qed.

Lemma bind_Raise {A B} (m : Py A) (k : A -> Py B) (w w' : world) (e : exn) :
  m w = (Raise e, w') -> bind m k w = (Raise e, w').
Proof. intros H. unfold bind. now rewrite H. Qed.

(** ** What a computation records *)

Lemma traced_ret {A} (tid : trace_id) (a : A) : traced tid (ret a).
Proof. intros w. exists []. simpl. now rewrite app_nil_r. Qed.

Lemma traced_raise {A} (tid : trace_id) (e : exn) : traced tid (@raise A e).
Proof. intros w. exists []. simpl. now rewrite app_nil_r. Qed.

Lemma traced_log (tid : trace_id) (e : event) :
  engine_call tid e -> traced tid (log e).
Proof. intros H w. exists [e]. simpl. split; [reflexivity|]. now constructor. Qed.

Lemma traced_quiet {A B} (tid : trace_id) (f : A -> Py B) (x : A) :
  quiet f -> traced tid (f x).
Proof. intros H w. exists []. rewrite H. now rewrite app_nil_r. Qed.

Lemma traced_bind {A B} (tid : trace_id) (m : Py A) (k : A -> Py B) :
  traced tid m ->
  (forall a w w', m w = (Ok a, w') -> traced tid (k a)) ->
  traced tid (bind m k).
Proof.
  intros Hm Hk w. unfold bind.
  destruct (Hm w) as [evs [Ht Hf]].
  destruct (m w) as [[a|e] w'] eqn:E; simpl in Ht.
  - destruct (Hk a w w' E w') as [evs' [Ht' Hf']].
    exists (evs ++ evs'). rewrite Ht', Ht, app_assoc. split; [reflexivity|].
    apply Forall_app. now split.
  - exists evs. now split.
Qed.

Lemma traced_try_block {A} (tid : trace_id) (m : Py A) :
  traced tid m -> traced tid (try_block m).
Proof.
  intros Hm w. destruct (Hm w) as [evs H]. exists evs.
  unfold try_block. now destruct (m w).
Qed.

Lemma try_block_Ok {A} (m : Py A) (w w' : world) (r : outcome A) :
  try_block m w = (Ok r, w') <-> m w = (r, w').
Proof.
  unfold try_block. destruct (m w) as [r0 w0]. split; intros H; inversion H; reflexivity.
Qed.

Lemma try_block_never_raises {A} (m : Py A) (w : world) :
  exists r w', try_block m w = (Ok r, w').
Proof. unfold try_block. destruct (m w) as [r w']. now exists r, w'. Qed.

(** Each nested layer takes two frames: a statement about every [depth]
    follows from the cases of no frame, one frame, and two frames more. *)
Lemma frames_ind (P : nat -> Prop) :
  P 0 -> P 1 -> (forall depth, P depth -> P (S (S depth))) -> forall depth, P depth.
Proof.
  intros H0 H1 Hstep depth.
  assert (H : P depth /\ P (S depth)).
  { induction depth as [|depth [IH IH']]; [now split|].
    split; [assumption|now apply Hstep]. }
  exact (proj1 H).
Qed.


(** [InvalidInputException] is bound by neither file. *)
Lemma load_InvalidInputException :
  load_global "InvalidInputException" = raise NameError.
Proof. reflexivity. Qed.

Section EngineFacts.

Variable S : Type.
Variable construct : trace_id -> json -> Py (Engine.processor S).
Variables indep stop : Engine.processor S -> Py bool.
Variable notify : Engine.processor S -> Py unit.

Let try_body := Engine.try_body construct indep.
Let after_try := Engine.after_try stop notify.
Let for_layer_nodes := Engine.for_layer_nodes construct indep stop notify.
Let process_data := Engine.process_data construct indep stop notify.

(** *** The [except] clause *)

(** Whatever exception ends the [try] body, the clause raises
    [NameError] and the [except] body is not entered. *)
Lemma after_try_Raise (e : exn) (po : option (Engine.processor S)) :
  after_try (Raise e) po = raise NameError.
Proof. reflexivity. Qed.

Lemma after_try_Ok (u : unit) (po : option (Engine.processor S)) :
  after_try (Ok u) po = ret tt.
Proof. reflexivity. Qed.

(** *** The calls of a run carry one trace identifier *)

Section Recorded.

Hypothesis construct_quiet : forall tid, quiet (construct tid).
Hypothesis construct_stores : stores_trace_id construct.
Hypothesis indep_quiet : quiet indep.

Lemma after_try_traced (tid : trace_id) (r : outcome unit)
      (po : option (Engine.processor S)) :
  traced tid (after_try r po).
Proof.
  destruct r as [u|e].
  - rewrite after_try_Ok. apply traced_ret.
  - rewrite after_try_Raise. apply traced_raise.
Qed.

Lemma try_body_traced (recur : Engine.processor S -> Py unit)
      (self : Engine.processor S) (node : json) (po : option (Engine.processor S)) :
  type_is_dict node = true ->
  (forall p, Engine._trace_id p = Engine._trace_id self ->
             traced (Engine._trace_id self) (recur p)) ->
  traced (Engine._trace_id self) (try_body recur self node po).
Proof.
  intros Hdict Hrec. unfold try_body, Engine.try_body.
  apply traced_bind.
  - apply traced_try_block. apply traced_bind.
    + apply traced_log. now split.
    + intros _ _ _ _. exact (traced_quiet _ _ node (construct_quiet _)).
  - intros [p|e] w w' E; [|apply traced_ret].
    apply (proj1 (try_block_Ok _ _ _ _)) in E. unfold bind in E. simpl in E.
    apply construct_stores in E.
    apply traced_bind; [|intros; apply traced_ret].
    apply traced_try_block. apply traced_bind; [now apply traced_quiet|].
    intros b _ _ _. apply traced_bind; [destruct b; apply traced_ret|].
    intros _ _ _ _. now apply Hrec.
Qed.

Lemma for_layer_nodes_traced (recur : Engine.processor S -> Py unit)
      (self : Engine.processor S) (nodes : list json) :
  Forall (fun node => type_is_dict node = true) nodes ->
  (forall p, Engine._trace_id p = Engine._trace_id self ->
             traced (Engine._trace_id self) (recur p)) ->
  forall po, traced (Engine._trace_id self) (for_layer_nodes recur self nodes po).
Proof.
  intros Hdicts Hrec. induction Hdicts as [|node rest Hdict Hrest IH]; intros po.
  - apply traced_ret.
  - change (for_layer_nodes recur self (node :: rest) po)
      with (tried <- try_body recur self node po ;;
            after_try (fst tried) (snd tried) ;;
            for_layer_nodes recur self rest (snd tried)).
    apply traced_bind; [now apply try_body_traced|].
    intros [r po'] _ _ _.
    apply traced_bind; [apply after_try_traced|].
    intros _ _ _ _. apply IH.
Qed.

Lemma process_data_traced (depth : nat) :
  forall self, traced (Engine._trace_id self) (process_data depth self).
Proof.
  induction depth as [| |depth IH] using frames_ind; intros self.
  - apply traced_raise.
  - apply traced_bind; [apply traced_log; reflexivity|].
    intros; apply traced_raise.
  - change (process_data (Datatypes.S (Datatypes.S depth)) self)
      with (log (Call_process_data (Engine._trace_id self) (Engine._data self)) ;;
            Engine._process construct indep stop notify (process_data depth) self).
    apply traced_bind; [apply traced_log; reflexivity|].
    intros _ _ _ _. unfold Engine._process.
    apply traced_bind.
    + intros w. exists []. rewrite app_nil_r.
      destruct (Engine._data self); simpl; (split; [reflexivity|constructor]).
    + intros items _ _ _. apply for_layer_nodes_traced.
      * apply layer_nodes_all_dicts.
      * intros p Hp. rewrite <- Hp. apply IH.
Qed.

End Recorded.

(** *** One turn of the loop *)

Lemma try_body_returns (recur : Engine.processor S -> Py unit)
      (self : Engine.processor S) (node : json) (po : option (Engine.processor S))
      (w : world) :
  exists r po' w', try_body recur self node po w = (Ok (r, po'), w').
Proof.
  unfold try_body, Engine.try_body, bind, try_block.
  destruct (log _ w) as [[u|e] w0]; simpl.
  - destruct (construct _ node w0) as [[p|e] w1]; simpl.
    + destruct (indep p w1) as [[b|e] w2]; simpl.
      * destruct b; simpl; destruct (recur p w2) as [r w3]; now eexists _, _, _.
      * now eexists _, _, _.
    + now eexists _, _, _.
  - now eexists _, _, _.
Qed.

(** The constructor failed: [processor_obj] keeps its value and
    [process_data] of the child is not called. *)
Lemma try_body_constructor_raises (recur : Engine.processor S -> Py unit)
      (self : Engine.processor S) (node : json) (po : option (Engine.processor S))
      (w w1 : world) (e : exn) :
  construct (Engine._trace_id self) node
    (record_calls w [Call_ConcreteProcessor (Engine._trace_id self) node]) = (Raise e, w1) ->
  try_body recur self node po w = (Ok (Raise e, po), w1).
Proof.
  intros Hc. unfold try_body, Engine.try_body, bind, try_block, log.
  now rewrite Hc.
Qed.

Lemma for_layer_nodes_turn (recur : Engine.processor S -> Py unit)
      (self : Engine.processor S) (node : json) (rest : list json)
      (po po' : option (Engine.processor S)) (w w' : world) (r : outcome unit) :
  try_body recur self node po w = (Ok (r, po'), w') ->
  for_layer_nodes recur self (node :: rest) po w
  = (after_try r po' ;; for_layer_nodes recur self rest po') w'.
Proof.
  intros Ht.
  change (for_layer_nodes recur self (node :: rest) po w)
    with ((tried <- try_body recur self node po ;;
           after_try (fst tried) (snd tried) ;;
           for_layer_nodes recur self rest (snd tried)) w).
  unfold bind at 1. now rewrite Ht.
Qed.

(** An exception that ends the [try] body ends the loop, as
    [NameError]. *)
Lemma for_layer_nodes_raises (recur : Engine.processor S -> Py unit)
      (self : Engine.processor S) (node : json) (rest : list json)
      (po po' : option (Engine.processor S)) (w w' : world) (e : exn) :
  try_body recur self node po w = (Ok (Raise e, po'), w') ->
  for_layer_nodes recur self (node :: rest) po w = (Raise NameError, w').
Proof.
  intros Ht. rewrite (for_layer_nodes_turn _ _ _ rest _ _ _ _ _ Ht).
  now rewrite after_try_Raise.
Qed.

(** A [try] body that ends normally is followed by the next node. *)
Lemma for_layer_nodes_next (recur : Engine.processor S -> Py unit)
      (self : Engine.processor S) (node : json) (rest : list json)
      (po po' : option (Engine.processor S)) (w w' : world) (u : unit) :
  try_body recur self node po w = (Ok (Ok u, po'), w') ->
  for_layer_nodes recur self (node :: rest) po w = for_layer_nodes recur self rest po' w'.
Proof.
  intros Ht. rewrite (for_layer_nodes_turn _ _ _ rest _ _ _ _ _ Ht).
  now rewrite after_try_Ok.
Qed.

(** *** How the loop and [process_data] can end *)

Lemma for_layer_nodes_ends (recur : Engine.processor S -> Py unit)
      (self : Engine.processor S) :
  forall nodes po w,
    fst (for_layer_nodes recur self nodes po w) = Ok tt
    \/ fst (for_layer_nodes recur self nodes po w) = Raise NameError.
Proof.
  induction nodes as [|node rest IH]; intros po w; [now left|].
  destruct (try_body_returns recur self node po w) as [[u|e] [po' [w' Ht]]].
  - rewrite (for_layer_nodes_next _ _ _ rest _ _ _ _ _ Ht). apply IH.
  - right. now rewrite (for_layer_nodes_raises _ _ _ rest _ _ _ _ _ Ht).
Qed.

Lemma process_data_two_frames (depth : nat) (self : Engine.processor S) (w : world) :
  process_data (Datatypes.S (Datatypes.S depth)) self w
  = let w1 := record_calls w [Call_process_data (Engine._trace_id self) (Engine._data self)] in
    match Engine._data self with
    | JDict items =>
        for_layer_nodes (process_data depth) self (Engine.layer_nodes items) None w1
    | _ => (Raise AttributeError, w1)
    end.
Proof.
  change (process_data (Datatypes.S (Datatypes.S depth)) self w)
    with ((log (Call_process_data (Engine._trace_id self) (Engine._data self)) ;;
           Engine._process construct indep stop notify (process_data depth) self) w).
  unfold bind, log, Engine._process, bind.
  destruct (Engine._data self); reflexivity.
Qed.

Lemma process_data_ends (depth : nat) (self : Engine.processor S) (w : world) :
  fst (process_data depth self w) = Ok tt
  \/ fst (process_data depth self w) = Raise RecursionError
  \/ fst (process_data depth self w) = Raise AttributeError
  \/ fst (process_data depth self w) = Raise NameError.
Proof.
  destruct depth as [|[|depth]].
  - right. now left.
  - right. now left.
  - rewrite process_data_two_frames. simpl.
    destruct (Engine._data self); try (right; right; now left).
    destruct (for_layer_nodes_ends (process_data depth) self
                (Engine.layer_nodes items) None
                (record_calls w [Call_process_data (Engine._trace_id self) (JDict items)]))
      as [H|H]; rewrite H; [now left|now repeat right].
Qed.

Lemma process_data_never_raises (x : exn) (depth : nat) :
  x <> RecursionError -> x <> AttributeError -> x <> NameError ->
  never_raises x (process_data depth).
Proof.
  intros Hr Ha Hn self w.
  destruct (process_data_ends depth self w) as [H|[H|[H|H]]]; rewrite H;
    try discriminate; intros Hx; inversion Hx; subst; contradiction.
Qed.

(** *** The [except] body is never run

    The run is the same whatever that body would read and call. *)

Section AnyHandler.

Variable stop' : Engine.processor S -> Py bool.
Variable notify' : Engine.processor S -> Py unit.

Lemma try_body_ext (recur recur' : Engine.processor S -> Py unit)
      (self : Engine.processor S) (node : json) (po : option (Engine.processor S))
      (w : world) :
  (forall p w0, recur p w0 = recur' p w0) ->
  try_body recur self node po w = try_body recur' self node po w.
Proof.
  intros Hext. unfold try_body, Engine.try_body, bind, try_block, log. simpl.
  destruct (construct _ node _) as [[p|e1] w1]; simpl; [|reflexivity].
  destruct (indep p w1) as [[b|e2] w2]; simpl; [|reflexivity].
  destruct b; simpl; now rewrite Hext.
Qed.

Lemma for_layer_nodes_any_handler (recur recur' : Engine.processor S -> Py unit)
      (self : Engine.processor S) :
  (forall p w0, recur p w0 = recur' p w0) ->
  forall nodes po w,
    for_layer_nodes recur self nodes po w
    = Engine.for_layer_nodes construct indep stop' notify' recur' self nodes po w.
Proof.
  intros Hext. induction nodes as [|node rest IH]; intros po w; [reflexivity|].
  destruct (try_body_returns recur self node po w) as [r [po' [w' Ht]]].
  rewrite (for_layer_nodes_turn _ _ _ rest _ _ _ _ _ Ht).
  rewrite (try_body_ext _ _ _ _ _ _ Hext) in Ht.
  transitivity ((Engine.after_try stop' notify' r po' ;;
                 Engine.for_layer_nodes construct indep stop' notify' recur' self rest po') w').
  - destruct r as [u|e].
    + rewrite after_try_Ok. apply IH.
    + now rewrite after_try_Raise.
  - change (Engine.for_layer_nodes construct indep stop' notify' recur' self (node :: rest) po w)
      with ((tried <- try_body recur' self node po ;;
             Engine.after_try stop' notify' (fst tried) (snd tried) ;;
             Engine.for_layer_nodes construct indep stop' notify' recur' self rest (snd tried)) w).
    now rewrite (bind_Ok _ _ _ _ _ Ht).
Qed.

Lemma process_data_any_handler (depth : nat) :
  forall self w,
    process_data depth self w
    = Engine.process_data construct indep stop' notify' depth self w.
Proof.
  induction depth as [| |depth IH] using frames_ind; intros self w;
    [reflexivity|reflexivity|].
  rewrite process_data_two_frames.
  change (Engine.process_data construct indep stop' notify'
            (Datatypes.S (Datatypes.S depth)) self w)
    with ((log (Call_process_data (Engine._trace_id self) (Engine._data self)) ;;
           Engine._process construct indep stop' notify'
             (Engine.process_data construct indep stop' notify' depth) self) w).
  unfold bind, log, Engine._process, bind. simpl.
  destruct (Engine._data self) as [| | | | | |items];
    [reflexivity|reflexivity|reflexivity|reflexivity|reflexivity|reflexivity|].
  now apply for_layer_nodes_any_handler.
Qed.

End AnyHandler.

(** *** When the constructor always fails *)

Section ConstructorFails.

Variable e0 : exn.
Hypothesis construct_fails : forall tid node w, construct tid node w = (Raise e0, w).

Lemma try_body_constructor_fails (recur : Engine.processor S -> Py unit)
      (self : Engine.processor S) (node : json) (po : option (Engine.processor S))
      (w : world) :
  try_body recur self node po w
  = (Ok (Raise e0, po), record_calls w [Call_ConcreteProcessor (Engine._trace_id self) node]).
Proof. apply try_body_constructor_raises. apply construct_fails. Qed.

Lemma for_layer_nodes_constructor_fails (recur : Engine.processor S -> Py unit)
      (self : Engine.processor S) (node : json) (rest : list json)
      (po : option (Engine.processor S)) (w : world) :
  for_layer_nodes recur self (node :: rest) po w
  = (Raise NameError, record_calls w [Call_ConcreteProcessor (Engine._trace_id self) node]).
Proof.
  exact (for_layer_nodes_raises _ _ _ rest _ _ _ _ _
           (try_body_constructor_fails recur self node po w)).
Qed.

Lemma process_data_constructor_fails (depth : nat) (self : Engine.processor S) (w : world) :
  process_data (Datatypes.S (Datatypes.S depth)) self w
  = let w1 := record_calls w [Call_process_data (Engine._trace_id self) (Engine._data self)] in
    match Engine._data self with
    | JDict items =>
        match Engine.layer_nodes items with
        | [] => (Ok tt, w1)
        | node :: _ =>
            (Raise NameError,
             record_calls w1 [Call_ConcreteProcessor (Engine._trace_id self) node])
        end
    | _ => (Raise AttributeError, w1)
    end.
Proof.
  rewrite process_data_two_frames. simpl.
  destruct (Engine._data self); try reflexivity.
  destruct (Engine.layer_nodes items) as [|node rest]; [reflexivity|].
  apply for_layer_nodes_constructor_fails.
Qed.

Lemma main_constructor_fails (decode : string -> option json) (depth : nat)
      (file_path : string) (w : world) :
  Engine.main construct indep stop notify decode depth file_path w
  = match files w file_path with
    | None => (Raise OSError, w)
    | Some content =>
        match decode content with
        | None => (Raise JSONDecodeError, w)
        | Some layer_data =>
            (Raise e0,
             record_calls (snd (uuid4 w))
               [Call_ConcreteProcessor (entropy w (drawn w)) layer_data])
        end
    end.
Proof.
  unfold Engine.main, bind, Engine.get_content_from_file, Engine.json_loads.
  destruct (files w file_path) as [content|]; [|reflexivity].
  destruct (decode content) as [layer_data|]; [|reflexivity].
  simpl. now rewrite construct_fails.
Qed.

End ConstructorFails.

End EngineFacts.

(** ** The two designs as instances of the engine *)

Lemma OneStrategy_ConcreteProcessor_raises (tid : trace_id) (layer_data : json) (w : world) :
  OneStrategyPerLayerType.ConcreteProcessor tid layer_data w = (Raise TypeError, w).
Proof. reflexivity. Qed.

Lemma Configuration_ConcreteProcessor_raises (tid : trace_id) (layer_data : json) (w : world) :
  ConfigurationBasedStrategy.ConcreteProcessor tid layer_data w = (Raise TypeError, w).
Proof. reflexivity. Qed.

Lemma OneStrategy_reads_raise (p : Engine.processor (option OneStrategyPerLayerType.strategy_class))
      (w : world) :
  OneStrategyPerLayerType.read_is_independent_of_children p w = (Raise AttributeError, w)
  /\ OneStrategyPerLayerType.read_stop_on_failure p w = (Raise AttributeError, w)
  /\ OneStrategyPerLayerType.call_notify p w = (Raise AttributeError, w).
Proof.
  unfold OneStrategyPerLayerType.read_is_independent_of_children,
    OneStrategyPerLayerType.read_stop_on_failure, OneStrategyPerLayerType.call_notify.
  destruct (Engine.strategy_attr p) as [[| |]|]; repeat split.
Qed.

Lemma Configuration_reads (p : Engine.processor ConfigurationBasedStrategy.ConcreteStrategy)
      (w : world) :
  ConfigurationBasedStrategy.read_is_independent_of_children p w
  = (Ok (ConfigurationBasedStrategy.is_independent_of_children (Engine.strategy_attr p)), w)
  /\ ConfigurationBasedStrategy.read_stop_on_failure p w = (Raise AttributeError, w)
  /\ ConfigurationBasedStrategy.call_notify p w = (Raise AttributeError, w).
Proof. repeat split. Qed.

(** C9.  [ConcreteProcessor] cannot be instantiated, in either design:
    [_undo_process] is abstract in [AbstractProcessor] and the class does
    not define it, so the constructor call raises [TypeError] whatever
    its arguments.  Hence [Driver.main], once the file is read and
    decoded, ends with that [TypeError] at the constructor call for the
    root, before any [process_data] (the only other ways it ends are the
    failure to read the file or to decode it); and in the loop of
    [_process] the [try] body for a queued node, whichever it is, ends
    with that [TypeError] at the constructor call for the node:
    [processor_obj] keeps the value it had and [process_data] of the
    child is not called. *)
Theorem ConcreteProcessor_cannot_be_instantiated :
  abstractmethods OneStrategyPerLayerType.ConcreteProcessor_cls = ["_undo_process"]
  /\ abstractmethods ConfigurationBasedStrategy.ConcreteProcessor_cls = ["_undo_process"]
  /\ (forall tid layer_data w,
        OneStrategyPerLayerType.ConcreteProcessor tid layer_data w = (Raise TypeError, w)
        /\ ConfigurationBasedStrategy.ConcreteProcessor tid layer_data w = (Raise TypeError, w))
  /\ (forall decode depth file_path w,
        let ends :=
          match files w file_path with
          | None => (Raise OSError, w)
          | Some content =>
              match decode content with
              | None => (Raise JSONDecodeError, w)
              | Some layer_data =>
                  (Raise TypeError,
                   record_calls (snd (uuid4 w))
                     [Call_ConcreteProcessor (entropy w (drawn w)) layer_data])
              end
          end in
        OneStrategyPerLayerType.main decode depth file_path w = ends
        /\ ConfigurationBasedStrategy.main decode depth file_path w = ends)
  /\ (forall recur self node po w,
        Engine.try_body OneStrategyPerLayerType.ConcreteProcessor
          OneStrategyPerLayerType.read_is_independent_of_children recur self node po w
        = (Ok (Raise TypeError, po),
           record_calls w [Call_ConcreteProcessor (Engine._trace_id self) node]))
  /\ (forall recur self node po w,
        Engine.try_body ConfigurationBasedStrategy.ConcreteProcessor
          ConfigurationBasedStrategy.read_is_independent_of_children recur self node po w
        = (Ok (Raise TypeError, po),
           record_calls w [Call_ConcreteProcessor (Engine._trace_id self) node])).
Proof.
  split; [reflexivity|]. split; [reflexivity|]. split; [|split; [|split]].
  - intros. split; reflexivity.
  - intros decode depth file_path w. simpl. split.
    + apply (main_constructor_fails _ _ _ _ _ TypeError). reflexivity.
    + apply (main_constructor_fails _ _ _ _ _ TypeError). reflexivity.
  - intros recur self node po w.
    apply (try_body_constructor_fails _ _ _ TypeError). reflexivity.
  - intros recur self node po w.
    apply (try_body_constructor_fails _ _ _ TypeError). reflexivity.
Qed.

(** ** The trace identifier *)

(** C8.  [Driver.main] draws the trace identifier once, after the
    document is decoded, and every constructor call and every
    [process_data] of the run carries that value: for an engine whose
    constructor stores the identifier it is given (as
    [AbstractProcessor.__init__] does, the only place that assigns
    [_trace_id]) and whose constructor and attribute reads make no call
    of their own, the calls recorded by [main] are none when the file
    cannot be read or decoded, and otherwise one [uuid4()], the
    constructor call for the root with its result, and then only calls
    made by the loop on behalf of that same value. *)
Theorem trace_id_drawn_once_and_shared
        (S : Type) (construct : trace_id -> json -> Py (Engine.processor S))
        (indep stop : Engine.processor S -> Py bool)
        (notify : Engine.processor S -> Py unit)
        (decode : string -> option json) :
  (forall tid, quiet (construct tid)) ->
  stores_trace_id construct ->
  quiet indep -> quiet stop -> quiet notify ->
  forall depth file_path w,
  exists evs,
    trace (snd (Engine.main construct indep stop notify decode depth file_path w))
    = trace w ++ evs
    /\ match files w file_path with
       | None => evs = []
       | Some content =>
           match decode content with
           | None => evs = []
           | Some layer_data =>
               exists evs',
                 evs = Call_uuid4 (entropy w (drawn w))
                       :: Call_ConcreteProcessor (entropy w (drawn w)) layer_data :: evs'
                 /\ Forall (engine_call (entropy w (drawn w))) evs'
           end
       end.
Proof.
  intros Hcq Hcs Hiq Hsq Hnq depth file_path w.
  unfold Engine.main, bind, Engine.get_content_from_file, Engine.json_loads.
  destruct (files w file_path) as [content|];
    [|exists []; simpl; now rewrite app_nil_r].
  destruct (decode content) as [layer_data|];
    [|exists []; simpl; now rewrite app_nil_r].
  simpl.
  set (u := entropy w (drawn w)). set (wu := record_calls _ _).
  assert (Ht : traced u (p <- construct u layer_data ;;
                         Engine.process_data construct indep stop notify depth p)).
  { apply traced_bind.
    - exact (traced_quiet _ _ layer_data (Hcq u)).
    - intros p w0 w0' Hp. apply Hcs in Hp. rewrite <- Hp.
      now apply process_data_traced. }
  destruct (Ht wu) as [evs' [Htr Hall]]. unfold bind in Htr.
  exists (Call_uuid4 u :: Call_ConcreteProcessor u layer_data :: evs').
  split.
  - destruct (construct u layer_data wu) as [[p|e] w1]; simpl in *;
      rewrite Htr; unfold wu; simpl; now rewrite <- !app_assoc.
  - exists evs'. now split.
Qed.

(** The hypotheses of C8 hold of the first design as it is written, run
    on the file ["doc.json"]. *)
Lemma trace_id_drawn_once_and_shared_witness :
  exists evs,
    trace (snd (OneStrategyPerLayerType.main (fun _ => Some (JDict [])) 3 "doc.json"
                  Exercise.empty_world))
    = trace Exercise.empty_world ++ evs
    /\ exists evs',
         evs = Call_uuid4 7%N :: Call_ConcreteProcessor 7%N (JDict []) :: evs'
         /\ Forall (engine_call 7%N) evs'.
Proof.
  apply (trace_id_drawn_once_and_shared _
           OneStrategyPerLayerType.ConcreteProcessor
           OneStrategyPerLayerType.read_is_independent_of_children
           OneStrategyPerLayerType.read_stop_on_failure
           OneStrategyPerLayerType.call_notify
           (fun _ => Some (JDict []))).
  - intros tid node w. reflexivity.
  - intros tid node w p w' H. discriminate H.
  - intros p w. now rewrite (proj1 (OneStrategy_reads_raise p w)).
  - intros p w. now rewrite (proj1 (proj2 (OneStrategy_reads_raise p w))).
  - intros p w. now rewrite (proj2 (proj2 (OneStrategy_reads_raise p w))).
Defined.

(** ** What the engine does to a layer *)

Lemma engine_call_not_Invoke (tid : trace_id) (evs : list event) :
  Forall (engine_call tid) evs -> forall cls m, ~ In (Invoke cls m) evs.
Proof.
  intros Hall cls m Hin. rewrite Forall_forall in Hall.
  exact (Hall _ Hin).
Qed.

(** C10.  The engine validates, transforms, stores and notifies nothing:
    every [validate] body of the two files returns without raising, and
    [process_data], for a constructor and a flag read that make no call
    of their own and raise neither [InvalidInputException] nor
    [SystemExit] (the source's raise [TypeError] and [AttributeError]
    only), records nothing but its own constructor calls, each on a
    dict, and recursive [process_data] calls, never a method of a
    strategy, transformer, notifier or storage; it never ends by
    [InvalidInputException] or by
    [exit]; and the [except] body is never run: the run is the same
    whatever that body would read and call. *)
Theorem engine_makes_no_strategy_call :
  ((forall c w, fst (OneStrategyPerLayerType.validate c w) = Ok tt)
   /\ (forall t w, fst (ConfigurationBasedStrategy.transformer_validate t w) = Ok tt)
   /\ (forall s w, fst (ConfigurationBasedStrategy.validate s w) = Ok tt))
  /\ forall (S : Type) (construct : trace_id -> json -> Py (Engine.processor S))
            (indep stop : Engine.processor S -> Py bool)
            (notify : Engine.processor S -> Py unit),
      (forall tid, quiet (construct tid)) ->
      stores_trace_id construct ->
      quiet indep ->
      (forall tid, no_failure_signal (construct tid)) ->
      no_failure_signal indep ->
      forall depth self w,
        let run := Engine.process_data construct indep stop notify depth self w in
        (exists evs,
            trace (snd run) = trace w ++ evs
            /\ Forall (engine_call (Engine._trace_id self)) evs
            /\ forall cls m, ~ In (Invoke cls m) evs)
        /\ fst run <> Raise InvalidInputException
        /\ (forall code, fst run <> Raise (SystemExit code))
        /\ (forall stop' notify',
               Engine.process_data construct indep stop' notify' depth self w = run).
Proof.
  split.
  - split; [|split].
    + intros [| |] w; reflexivity.
    + intros [|] w; reflexivity.
    + intros s w. unfold ConfigurationBasedStrategy.validate, bind. simpl.
      destruct (ConfigurationBasedStrategy.transformer s); reflexivity.
  - intros S construct indep stop notify Hcq Hcs Hiq Hcn Hin depth self w run.
    assert (Hany : forall stop' notify',
               Engine.process_data construct indep stop' notify' depth self w = run).
    { intros stop' notify'. symmetry. apply process_data_any_handler. }
    split; [|split; [|split]].
    + destruct (process_data_traced S construct indep stop notify Hcq Hcs Hiq depth self w)
        as [evs [Ht Hall]].
      exists evs. split; [assumption|]. split; [assumption|].
      now apply engine_call_not_Invoke with (tid := Engine._trace_id self).
    + apply process_data_never_raises; discriminate.
    + intros code. apply process_data_never_raises; discriminate.
    + exact Hany.
Qed.

(** The hypotheses of C10 hold of the first design as it is written, on
    a processor (were there one) for [{"address": {"street": "Main"}}]. *)
Lemma engine_makes_no_strategy_call_witness :
  let self := {| Engine._trace_id := 7%N;
                 Engine._data := JDict [("address", JDict [("street", JStr "Main")])];
                 Engine.strategy_attr := @None OneStrategyPerLayerType.strategy_class |} in
  let run := OneStrategyPerLayerType.process_data 3 self Exercise.empty_world in
  (exists evs,
      trace (snd run) = trace Exercise.empty_world ++ evs
      /\ Forall (engine_call 7%N) evs
      /\ forall cls m, ~ In (Invoke cls m) evs)
  /\ fst run <> Raise InvalidInputException
  /\ (forall code, fst run <> Raise (SystemExit code))
  /\ (forall stop' notify',
         Engine.process_data OneStrategyPerLayerType.ConcreteProcessor
           OneStrategyPerLayerType.read_is_independent_of_children stop' notify' 3 self
           Exercise.empty_world = run).
Proof.
  intros self run.
  apply (proj2 engine_makes_no_strategy_call _
           OneStrategyPerLayerType.ConcreteProcessor
           OneStrategyPerLayerType.read_is_independent_of_children
           OneStrategyPerLayerType.read_stop_on_failure
           OneStrategyPerLayerType.call_notify).
  - intros tid node w. reflexivity.
  - intros tid node w p w' H. discriminate H.
  - intros p w. now rewrite (proj1 (OneStrategy_reads_raise p w)).
  - intros tid. split; [|intros code]; intros node w; simpl; discriminate.
  - split; [|intros code]; intros p w;
      rewrite (proj1 (OneStrategy_reads_raise p w)); simpl; discriminate.
Defined.

(** ** The failure scenarios *)





(** * Further properties of the code *)

(** ** The factories of the second design *)

(** X1.  The three factories select one of four combinations, and the
    field name decides which: ['address'] gets the rule-based
    transformer with the email notifier and the S3 storage,
    ['transaction'] the rule-based transformer with the message-queue
    notifier and the database storage, ['location'] the reflective
    transformer with the message-queue notifier and the database
    storage, and every other field name the reflective transformer with
    the null notifier and the file storage.  So the notifier and the
    storage always go together (email with S3, message queue with
    database, null with file). *)
Theorem factories_select_four_combinations (l : Layer) :
  let chosen := (ConfigurationBasedStrategy.get_transformer l,
                 ConfigurationBasedStrategy.get_notifier l,
                 ConfigurationBasedStrategy.get_storage l) in
  (field_name l = "address" /\
   chosen = (ConfigurationBasedStrategy.RuleBasedTransformer,
             ConfigurationBasedStrategy.EmailNotifier,
             ConfigurationBasedStrategy.StoreToS3))
  \/ (field_name l = "transaction" /\
      chosen = (ConfigurationBasedStrategy.RuleBasedTransformer,
                ConfigurationBasedStrategy.MessageQueueNotifier,
                ConfigurationBasedStrategy.StoreToDB))
  \/ (field_name l = "location" /\
      chosen = (ConfigurationBasedStrategy.ReflectiveTransformer,
                ConfigurationBasedStrategy.MessageQueueNotifier,
                ConfigurationBasedStrategy.StoreToDB))
  \/ (field_name l <> "address" /\ field_name l <> "transaction" /\
      field_name l <> "location" /\
      chosen = (ConfigurationBasedStrategy.ReflectiveTransformer,
                ConfigurationBasedStrategy.NullNotifier,
                ConfigurationBasedStrategy.StoreToFile)).
Proof.
  intros chosen. subst chosen.
  unfold ConfigurationBasedStrategy.get_transformer, ConfigurationBasedStrategy.get_notifier,
    ConfigurationBasedStrategy.get_storage, ConfigurationBasedStrategy.in_tuple.
  simpl.
  destruct (String.eqb_spec (field_name l) "address") as [Ha|Ha].
  - left. now split.
  - destruct (String.eqb_spec (field_name l) "transaction") as [Ht|Ht].
    + right; left. split; [assumption|].
      destruct (String.eqb_spec (field_name l) "location"); reflexivity.
    + destruct (String.eqb_spec (field_name l) "location") as [Hl|Hl].
      * right; right; left. now split.
      * right; right; right. repeat split; assumption.
Qed.

(** ** Which classes can be instantiated *)

(** X2.  In the second design no strategy can be built: the transformer
    and notifier classes implement every abstract method of their base
    class, the three storage classes implement none ([store] and
    [remove] stay abstract), so [ConcreteStrategy(data, ...)] raises
    [TypeError] for every layer and every pair of flags, leaving the
    interpreter state as it was. *)
Theorem no_ConcreteStrategy_can_be_built :
  (forall t, abstractmethods (ConfigurationBasedStrategy.transformer_cls t) = [])
  /\ (forall n, abstractmethods (ConfigurationBasedStrategy.notifier_cls n) = [])
  /\ abstractmethods ConfigurationBasedStrategy.ConcreteStrategy_cls = []
  /\ (forall s, abstractmethods (ConfigurationBasedStrategy.storage_cls s) = ["store"; "remove"])
  /\ (forall l stop independent w,
         ConfigurationBasedStrategy.ConcreteStrategy_new l stop independent w
         = (Raise TypeError, w)).
Proof.
  repeat split.
  - intros [|]; reflexivity.
  - intros [| |]; reflexivity.
  - intros [| |]; reflexivity.
  - intros l stop independent w.
    unfold ConfigurationBasedStrategy.ConcreteStrategy_new, bind, object_new.
    destruct (ConfigurationBasedStrategy.get_transformer l),
      (ConfigurationBasedStrategy.get_storage l); reflexivity.
Qed.

(** ** [AddressProcessor] *)

Module AddressProcessingFacts.

Import OneStrategyPerLayerType AddressProcessing.

(** X3.  [AddressProcessor] cannot be instantiated either: it defines
    [_process] but not [_undo_process], so the constructor call raises
    [TypeError] whatever its arguments; the three address strategy
    classes, which it would call, can be. *)
Theorem AddressProcessor_cannot_be_instantiated :
  abstractmethods AddressProcessor_cls = ["_undo_process"]
  /\ (forall tid l w, AddressProcessor tid l w = (Raise TypeError, w))
  /\ (forall c, abstractmethods (class_of c) = []).
Proof.
  repeat split. intros [| |]; reflexivity.
Qed.

(** X4.  What [_validate] does on the object [__init__] would leave for
    a layer: for the field name ['address'], a layer with a ['street']
    field ends in [TypeError] (the street class takes no argument), so
    the street validation never runs; one with an ['avenue'] field and
    no ['street'] runs the avenue validation and then the base one; one
    with neither runs the base validation only; for any other field name
    the call ends in [TypeError] ([None] is not callable). *)
Theorem AddressProcessor_validate_by_layer (tid : trace_id) (l : Layer) (w : world) :
  _validate (AddressProcessor_init tid l) w
  = if String.eqb (field_name l) "address" then
      if dict_contains "street" (data l) then (Raise TypeError, w)
      else if dict_contains "avenue" (data l) then
        (Ok tt, record_calls (record_calls w [Invoke "AvenueAddressStrategy" "validate"])
                  [Invoke "BaseAddressStrategy" "validate"])
      else (Ok tt, record_calls w [Invoke "BaseAddressStrategy" "validate"])
    else (Raise TypeError, w).
Proof.
  unfold _validate, AddressProcessor_init, get_strategy. simpl.
  destruct (String.eqb (field_name l) "address"); [|reflexivity].
  destruct (dict_contains "street" (data l)); [reflexivity|].
  destruct (dict_contains "avenue" (data l)); reflexivity.
Qed.

(** X5.  Whenever calling the resolved class with the layer returns an
    instance, that instance is not of the street class, its
    [stop_on_failure] is the layer that was passed (the positional
    argument lands on the first keyword parameter) and not a flag, and
    its [is_independent_of_children] is false. *)
Theorem strategy_instance_holds_layer_as_flag
        (strategy : option strategy_class) (l : Layer) (w w' : world) (s : instance) :
  call_strategy strategy l w = (Ok s, w') ->
  strategy = Some (instance_class s)
  /\ instance_class s <> StreetAddressStrategy
  /\ instance_stop_on_failure s = Passed l
  /\ instance_is_independent_of_children s = false
  /\ w' = w.
Proof.
  destruct strategy as [[| |]|]; simpl; intros H; try discriminate H;
    inversion H; subst; simpl; repeat split; discriminate.
Qed.

Lemma strategy_instance_holds_layer_as_flag_witness :
  let l := {| field_name := "address"; data := [("avenue", JStr "5th")] |} in
  let s := {| instance_class := AvenueAddressStrategy;
              instance_is_independent_of_children := false;
              instance_stop_on_failure := Passed l |} in
  get_strategy (field_name l) (data l) = Some (instance_class s)
  /\ instance_class s <> StreetAddressStrategy
  /\ instance_stop_on_failure s = Passed l
  /\ instance_is_independent_of_children s = false
  /\ Exercise.empty_world = Exercise.empty_world.
Proof.
  intros l s.
  apply (strategy_instance_holds_layer_as_flag
           (get_strategy (field_name l) (data l)) l Exercise.empty_world
           Exercise.empty_world s).
  reflexivity.
Defined.

End AddressProcessingFacts.

(** ** Exceptions in the loop of [_process] *)

(** X10.  As the [except] clause is written, an exception that ends the
    [try] body for a node neither leaves the loop as itself nor reaches
    the [except] body: the clause names [InvalidInputException], which
    neither file binds, and evaluating the name raises [NameError] in
    place of the exception, whichever it is and whether the constructor,
    the flag read or [process_data] of the child raised it.  The loop
    ends there, in the state the [try] body left: the remaining nodes are
    not constructed, and neither [stop_on_failure] nor [notify] is
    consulted. *)
Theorem except_clause_raises_NameError
        (S : Type) (construct : trace_id -> json -> Py (Engine.processor S))
        (indep stop : Engine.processor S -> Py bool)
        (notify : Engine.processor S -> Py unit)
        (recur : Engine.processor S -> Py unit)
        (self : Engine.processor S) (node : json) (rest : list json)
        (po po' : option (Engine.processor S)) (w w' : world) (e : exn) :
  Engine.try_body construct indep recur self node po w = (Ok (Raise e, po'), w') ->
  Engine.for_layer_nodes construct indep stop notify recur self (node :: rest) po w
  = (Raise NameError, w')
  /\ (forall stop' notify' rest',
         Engine.for_layer_nodes construct indep stop' notify' recur self (node :: rest') po w
         = (Raise NameError, w')).
Proof.
  intros Ht. split.
  - exact (for_layer_nodes_raises S construct indep stop notify _ _ _ rest _ _ _ _ _ Ht).
  - intros stop' notify' rest'.
    exact (for_layer_nodes_raises S construct indep stop' notify' _ _ _ rest' _ _ _ _ _ Ht).
Qed.

(** X10 on the second design as written: the [TypeError] of the
    constructor ends the loop at the first node, as [NameError]. *)
Lemma except_clause_raises_NameError_witness :
  let self := {| Engine._trace_id := 7%N;
                 Engine._data := Exercise.transaction_document;
                 Engine.strategy_attr :=
                   {| ConfigurationBasedStrategy.is_independent_of_children := false;
                      ConfigurationBasedStrategy.stop_on_failure := true;
                      ConfigurationBasedStrategy.transformer :=
                        ConfigurationBasedStrategy.ReflectiveTransformer;
                      ConfigurationBasedStrategy.storage_handler :=
                        ConfigurationBasedStrategy.StoreToFile;
                      ConfigurationBasedStrategy.notifier_obj :=
                        ConfigurationBasedStrategy.NullNotifier |} |} in
  let w' := record_calls Exercise.empty_world
              [Call_ConcreteProcessor 7%N Exercise.rejected_amount] in
  Engine.for_layer_nodes ConfigurationBasedStrategy.ConcreteProcessor
    ConfigurationBasedStrategy.read_is_independent_of_children
    ConfigurationBasedStrategy.read_stop_on_failure
    ConfigurationBasedStrategy.call_notify
    (ConfigurationBasedStrategy.process_data 3) self
    [Exercise.rejected_amount; Exercise.location] None Exercise.empty_world
  = (Raise NameError, w')
  /\ (forall stop' notify' rest',
         Engine.for_layer_nodes ConfigurationBasedStrategy.ConcreteProcessor
           ConfigurationBasedStrategy.read_is_independent_of_children stop' notify'
           (ConfigurationBasedStrategy.process_data 3) self
           (Exercise.rejected_amount :: rest') None Exercise.empty_world
         = (Raise NameError, w')).
Proof.
  intros self w'.
  apply (except_clause_raises_NameError _ ConfigurationBasedStrategy.ConcreteProcessor
           ConfigurationBasedStrategy.read_is_independent_of_children
           ConfigurationBasedStrategy.read_stop_on_failure
           ConfigurationBasedStrategy.call_notify
           (ConfigurationBasedStrategy.process_data 3) self
           Exercise.rejected_amount [Exercise.location] None None
           Exercise.empty_world w' TypeError).
  reflexivity.
Defined.

(** X12.  As the files are written no nested layer is ever processed.
    [process_data] on a processor whose data is a dict (were one built,
    and given the two frames it needs) returns only when no field of the
    dict holds a dict; otherwise it ends by [NameError] right after the
    constructor call for the first such field, in both designs, whatever
    the other fields are: the [TypeError] of that call is what the
    [except] clause replaces. *)
Theorem no_nested_layer_is_processed :
  forall depth tid items w,
    let w1 := record_calls w [Call_process_data tid (JDict items)] in
    let ends :=
      match Engine.layer_nodes items with
      | [] => (Ok tt, w1)
      | node :: _ => (Raise NameError, record_calls w1 [Call_ConcreteProcessor tid node])
      end in
    (forall s,
        OneStrategyPerLayerType.process_data (S (S depth))
          {| Engine._trace_id := tid; Engine._data := JDict items;
             Engine.strategy_attr := s |} w = ends)
    /\ (forall s,
        ConfigurationBasedStrategy.process_data (S (S depth))
          {| Engine._trace_id := tid; Engine._data := JDict items;
             Engine.strategy_attr := s |} w = ends).
Proof.
  intros depth tid items w w1 ends. subst ends w1. split; intros s.
  - unfold OneStrategyPerLayerType.process_data.
    now rewrite (process_data_constructor_fails _ _ _ _ _ TypeError) by reflexivity.
  - unfold ConfigurationBasedStrategy.process_data.
    now rewrite (process_data_constructor_fails _ _ _ _ _ TypeError) by reflexivity.
Qed.

(** ** The attribute reads as the files have them *)

(** X11.  In both files the [except] body fails before it applies any
    policy: whatever [processor_obj] holds, it ends in [AttributeError]
    and leaves the state as it was.  In the first file the flag is read
    from the class [get_strategy] returned (or from [None]), which has
    no such attribute; in the second the processor has no attribute
    [strategy_obj]. *)
Theorem except_body_always_raises_AttributeError :
  (forall po w,
      Engine.except_body OneStrategyPerLayerType.read_stop_on_failure
        OneStrategyPerLayerType.call_notify po w = (Raise AttributeError, w))
  /\ (forall po w,
      Engine.except_body ConfigurationBasedStrategy.read_stop_on_failure
        ConfigurationBasedStrategy.call_notify po w = (Raise AttributeError, w)).
Proof.
  split; intros [p|] w; try reflexivity.
  unfold Engine.except_body, bind.
  now rewrite (proj1 (proj2 (OneStrategy_reads_raise p w))).
Qed.

(** ** The timing script *)

Module FileParsingStatsFacts.

Import FileParsingStats.

Section ScriptFacts.

Variable T : Type.
Variable minus : T -> T -> T.
Variable decode : string -> option json.

Lemma flat_map_shift (f : nat -> list nat) (start len : nat) :
  flat_map f (seq (Datatypes.S start) len) = flat_map (fun i => f (Datatypes.S i)) (seq start len).
Proof.
  now rewrite <- seq_shift, flat_map_concat_map, map_map, <- flat_map_concat_map.
Qed.

Lemma process_json_file_effect (file_path : string) (m : machine T) :
  match process_json_file minus decode file_path m with
  | (inl e, m') =>
      e <> ZeroDivisionError /\ printed m' = printed m
      /\ (opened m' = opened m \/ opened m' = opened m ++ [file_path])
  | (inr _, m') =>
      printed m' = printed m /\ opened m' = opened m ++ [file_path]
      /\ ticks m' = 3 + ticks m
      /\ exists content, disk m file_path = Some content /\ decode content <> None
  end.
Proof.
  unfold process_json_file.
  destruct (disk m file_path) as [content|] eqn:Ed.
  - simpl. destruct (decode content) eqn:Ej; simpl.
    + repeat split. exists content. split; [reflexivity|]. now rewrite Ej.
    + repeat split; [discriminate|]. now right.
  - repeat split; [discriminate|]. now left.
Qed.

Lemma trials_effect (remaining : nat) :
  forall read_stats parsing_stats (m : machine T),
  match trials minus decode remaining read_stats parsing_stats m with
  | (inl e, m') =>
      e <> ZeroDivisionError /\ printed m' = printed m
      /\ exists k, opened m' = opened m ++ repeat large_file k
  | (inr (read_stats', parsing_stats'), m') =>
      printed m' = printed m
      /\ opened m' = opened m ++ repeat large_file remaining
      /\ ticks m' = 3 * remaining + ticks m
      /\ List.length read_stats' = List.length read_stats + remaining
      /\ List.length parsing_stats' = List.length parsing_stats + remaining
  end.
Proof.
  induction remaining as [|remaining IH]; intros read_stats parsing_stats m.
  - simpl. rewrite app_nil_r. repeat split; lia.
  - simpl.
    pose proof (process_json_file_effect large_file m) as Hp. revert Hp.
    destruct (FileParsingStats.process_json_file minus decode large_file m)
      as [[e|[read_time parsing_time]] m1]; intros Hp.
    + destruct Hp as [He [Hpr Hop]]. repeat split; try assumption.
      destruct Hop as [Hop|Hop]; [exists 0|exists 1]; rewrite Hop; simpl;
        now rewrite ?app_nil_r.
    + destruct Hp as [Hpr [Hop [Htk _]]].
      specialize (IH (read_stats ++ [read_time]) (parsing_stats ++ [parsing_time]) m1).
      revert IH.
      destruct (FileParsingStats.trials minus decode remaining
                  (read_stats ++ [read_time]) (parsing_stats ++ [parsing_time]) m1)
        as [[e|[read_stats' parsing_stats']] m2]; intros IH.
      * destruct IH as [He [Hpr' [k Hk]]]. repeat split; try congruence.
        exists (Datatypes.S k). rewrite Hk, Hop, <- app_assoc. reflexivity.
      * destruct IH as [Hpr' [Hop' [Htk' [Hr Hs]]]].
        rewrite !length_app in *. simpl in *.
        repeat split; try congruence; try lia.
        rewrite Hop', Hop, <- app_assoc. reflexivity.
Qed.

Lemma measure_effect (num_trials : nat) (paths : list string) :
  0 < num_trials ->
  forall read_stats parsing_stats (m : machine T),
  List.length read_stats = List.length parsing_stats ->
  match measure minus decode num_trials paths read_stats parsing_stats m with
  | (inl e, m') =>
      e <> ZeroDivisionError /\ exists k, opened m' = opened m ++ repeat large_file k
  | (inr (read_stats', parsing_stats'), m') =>
      opened m' = opened m ++ repeat large_file (List.length paths * num_trials)
      /\ ticks m' = 3 * (List.length paths * num_trials) + ticks m
      /\ List.length read_stats' = List.length read_stats + List.length paths * num_trials
      /\ List.length parsing_stats' = List.length read_stats'
      /\ exists reports,
           printed m' = printed m ++ reports
           /\ map (@report_path T) reports = flat_map (fun p => [p; p]) paths
           /\ map (@report_size T) reports
              = flat_map (fun i => [List.length read_stats + i * num_trials;
                                    List.length read_stats + i * num_trials])
                  (seq 1 (List.length paths))
  end.
Proof.
  intros Hpos. induction paths as [|file_path paths IH];
    intros read_stats parsing_stats m Hlen.
  - simpl. rewrite app_nil_r. repeat split; try lia. exists []. now rewrite app_nil_r.
  - simpl.
    pose proof (trials_effect num_trials read_stats parsing_stats m) as Ht.
    revert Ht.
    destruct (FileParsingStats.trials minus decode num_trials read_stats parsing_stats m)
      as [[e|[read_stats1 parsing_stats1]] m1]; intros Ht.
    + destruct Ht as [He [_ Hk]]. now split.
    + destruct Ht as [Hpr [Hop [Htk [Hr Hs]]]].
      unfold print_stats.
      destruct read_stats1 as [|r0 read_stats1]; [simpl in Hr; lia|].
      destruct parsing_stats1 as [|p0 parsing_stats1]; [simpl in Hs; lia|].
      set (rs := r0 :: read_stats1) in *. set (ps := p0 :: parsing_stats1) in *.
      set (m3 := print (ParsingReport file_path ps) (print (ReadReport file_path rs) m1)).
      assert (Hlen' : List.length rs = List.length ps) by lia.
      specialize (IH rs ps m3 Hlen'). revert IH.
      change (FileParsingStats.print_stats (ReadReport file_path) rs m1)
        with (@inr script_error unit tt, print (ReadReport file_path rs) m1).
      change (FileParsingStats.print_stats (ParsingReport file_path) ps
                (print (ReadReport file_path rs) m1))
        with (@inr script_error unit tt, m3).
      cbv iota beta.
      destruct (FileParsingStats.measure minus decode num_trials paths rs ps m3)
        as [[e|[read_stats' parsing_stats']] m']; intros IH.
      * destruct IH as [He [k Hk]]. split; [assumption|].
        exists (num_trials + k). rewrite Hk. unfold m3. simpl.
        rewrite Hop, <- app_assoc, repeat_app. reflexivity.
      * destruct IH as [Hop' [Htk' [Hr' [Hs' [reports [Hrep [Hpaths Hsizes]]]]]]].
        unfold m3 in Hop', Htk', Hrep. simpl in Hop', Htk', Hrep.
        repeat split.
        -- now rewrite Hop', Hop, <- app_assoc, <- repeat_app.
        -- lia.
        -- lia.
        -- assumption.
        -- exists (ReadReport file_path rs :: ParsingReport file_path ps :: reports).
           repeat split.
           ++ rewrite Hrep, Hpr, <- !app_assoc. reflexivity.
           ++ simpl. now rewrite Hpaths.
           ++ cbn [map report_size List.length seq flat_map app].
              rewrite Hsizes, (flat_map_shift _ 1 (List.length paths)).
              assert (Hrs : List.length rs = List.length read_stats + num_trials)
                by exact Hr.
              assert (Hps : List.length ps = List.length read_stats + num_trials)
                by (rewrite <- Hlen'; exact Hr).
              rewrite Hps, Hrs.
              f_equal; [lia|]. f_equal; [lia|].
              apply flat_map_ext. intros i. f_equal; [lia|]. f_equal. lia.
Qed.

End ScriptFacts.

End FileParsingStatsFacts.

Module FileParsingStatsRuns.

Import FileParsingStats.

Section Succeeds.

Variable T : Type.
Variable minus : T -> T -> T.
Variable decode : string -> option json.
Variable content : string.
Variable json_obj : json.
Hypothesis decodes : decode content = Some json_obj.

Lemma process_json_file_succeeds (file_path : string) (m : machine T) :
  disk m file_path = Some content ->
  exists times m', process_json_file minus decode file_path m = (inr times, m')
                   /\ disk m' = disk m.
Proof.
  intros Hd. unfold process_json_file. rewrite Hd. simpl. rewrite decodes.
  eexists _, _. split; reflexivity.
Qed.

Lemma trials_succeeds (remaining : nat) :
  forall read_stats parsing_stats (m : machine T),
    disk m large_file = Some content ->
    exists stats m', trials minus decode remaining read_stats parsing_stats m = (inr stats, m')
                     /\ disk m' = disk m.
Proof.
  induction remaining as [|remaining IH]; intros read_stats parsing_stats m Hd; simpl.
  - eexists _, _. split; reflexivity.
  - destruct (process_json_file_succeeds large_file m Hd) as [[read_time parsing_time] [m1 [Hp Hd1]]].
    rewrite Hp.
    destruct (IH (read_stats ++ [read_time]) (parsing_stats ++ [parsing_time]) m1)
      as [stats [m' [Ht Hd']]]; [congruence|].
    exists stats, m'. split; [assumption|congruence].
Qed.

Lemma measure_succeeds (num_trials : nat) (paths : list string) :
  0 < num_trials ->
  forall read_stats parsing_stats (m : machine T),
    List.length read_stats = List.length parsing_stats ->
    disk m large_file = Some content ->
    exists stats m', measure minus decode num_trials paths read_stats parsing_stats m
                     = (inr stats, m').
Proof.
  intros Hpos. induction paths as [|file_path paths IH];
    intros read_stats parsing_stats m Hlen Hd; simpl.
  - eexists _, _. reflexivity.
  - destruct (trials_succeeds num_trials read_stats parsing_stats m Hd)
      as [[rs ps] [m1 [Ht Hd1]]].
    pose proof (FileParsingStatsFacts.trials_effect T minus decode num_trials
                  read_stats parsing_stats m) as He.
    rewrite Ht in He. destruct He as [_ [_ [_ [Hr Hs]]]].
    rewrite Ht.
    destruct rs as [|r0 rs]; [simpl in Hr; lia|].
    destruct ps as [|p0 ps]; [simpl in Hs; lia|].
    simpl. apply IH; [lia|]. simpl. congruence.
Qed.

End Succeeds.

(** X13.  The script never divides by zero: whatever the number of
    trials, the files on disk, the decoder and the clock, it does not end
    in [ZeroDivisionError]; a report is printed only after the trials of
    its round have added samples, and with no trial there is no round. *)
Theorem script_never_divides_by_zero
        (T : Type) (minus : T -> T -> T) (decode : string -> option json)
        (num_trials : nat) (m : machine T) :
  fst (script minus decode num_trials m) <> inl ZeroDivisionError.
Proof.
  unfold script. destruct num_trials as [|n]; [simpl; discriminate|].
  pose proof (FileParsingStatsFacts.measure_effect T minus decode (S n) (file_paths (S n))
                (Nat.lt_0_succ n) [] [] m eq_refl) as H.
  destruct (measure minus decode (S n) (file_paths (S n)) [] [] m) as [[e|[rs ps]] m'];
    simpl; [|discriminate].
  destruct H as [He _]. intros Heq. apply He. now inversion Heq.
Qed.

(** X14.  The script opens the large file only: however it ends, the
    files it has opened are so many times ['../resources/large-file.json'],
    and never the small file, although every second round is reported
    under the small file's path. *)
Theorem script_opens_large_file_only
        (T : Type) (minus : T -> T -> T) (decode : string -> option json)
        (num_trials : nat) (m : machine T) :
  exists k,
    opened (snd (script minus decode num_trials m)) = opened m ++ repeat large_file k
    /\ ~ In small_file (repeat large_file k).
Proof.
  assert (Hsmall : forall k, ~ In small_file (repeat large_file k)).
  { intros k Hin. apply repeat_spec in Hin. discriminate Hin. }
  unfold script. destruct num_trials as [|n].
  - exists 0. split; [simpl; now rewrite app_nil_r|exact (Hsmall 0)].
  - pose proof (FileParsingStatsFacts.measure_effect T minus decode (S n) (file_paths (S n))
                  (Nat.lt_0_succ n) [] [] m eq_refl) as H.
    destruct (measure minus decode (S n) (file_paths (S n)) [] [] m) as [[e|[rs ps]] m'];
      simpl.
    + destruct H as [_ [k Hk]]. exists k. split; [assumption|apply Hsmall].
    + destruct H as [Hop _]. eexists. split; [exact Hop|apply Hsmall].
Qed.

Lemma file_paths_length (num_trials : nat) :
  List.length (file_paths num_trials) = 2 * num_trials.
Proof.
  unfold file_paths. induction num_trials as [|n IH]; [reflexivity|].
  simpl. rewrite IH. lia.
Qed.

(** X15.  When the large file is on disk and decodes, the script runs to
    its end: it opens the large file and decodes it
    [2 * num_trials * num_trials] times, reading the clock three times
    each; it prints two reports per round, labelled with the paths of the
    list in order (large, small, large, ...), and the samples are never
    reset, so the reports of round [i] average [i * num_trials] samples,
    all taken on the large file. *)
Theorem script_reports_accumulate
        (T : Type) (minus : T -> T -> T) (decode : string -> option json)
        (num_trials : nat) (m : machine T) (content : string) (json_obj : json) :
  disk m large_file = Some content ->
  decode content = Some json_obj ->
  exists read_stats parsing_stats m' reports,
    script minus decode num_trials m = (inr (read_stats, parsing_stats), m')
    /\ opened m' = opened m ++ repeat large_file (2 * num_trials * num_trials)
    /\ ticks m' = 3 * (2 * num_trials * num_trials) + ticks m
    /\ List.length read_stats = 2 * num_trials * num_trials
    /\ List.length parsing_stats = 2 * num_trials * num_trials
    /\ printed m' = printed m ++ reports
    /\ map (@report_path T) reports = flat_map (fun p => [p; p]) (file_paths num_trials)
    /\ map (@report_size T) reports
       = flat_map (fun i => [i * num_trials; i * num_trials]) (seq 1 (2 * num_trials)).
Proof.
  intros Hd Hj. unfold script. destruct num_trials as [|n].
  - exists [], [], m, []. simpl. rewrite !app_nil_r. repeat split.
  - destruct (measure_succeeds T minus decode content json_obj Hj (S n) (file_paths (S n))
                (Nat.lt_0_succ n) [] [] m eq_refl Hd) as [[rs ps] [m' Hrun]].
    pose proof (FileParsingStatsFacts.measure_effect T minus decode (S n) (file_paths (S n))
                  (Nat.lt_0_succ n) [] [] m eq_refl) as H.
    rewrite Hrun in H. rewrite file_paths_length in H.
    destruct H as [Hop [Htk [Hr [Hs [reports [Hrep [Hpaths Hsizes]]]]]]].
    exists rs, ps, m', reports. simpl List.length in *.
    repeat split; try assumption; try lia.
Qed.

Lemma script_reports_accumulate_witness :
  exists read_stats parsing_stats m' reports,
    script Nat.sub (fun _ => Some (JList [])) 2 fresh_machine
    = (inr (read_stats, parsing_stats), m')
    /\ opened m' = opened fresh_machine ++ repeat large_file 8
    /\ ticks m' = 24 + ticks fresh_machine
    /\ List.length read_stats = 8
    /\ List.length parsing_stats = 8
    /\ printed m' = printed fresh_machine ++ reports
    /\ map (@report_path nat) reports
       = [large_file; large_file; small_file; small_file;
          large_file; large_file; small_file; small_file]
    /\ map (@report_size nat) reports = [2; 2; 4; 4; 6; 6; 8; 8].
Proof.
  apply (script_reports_accumulate nat Nat.sub (fun _ => Some (JList [])) 2
           fresh_machine "[]" (JList [])); reflexivity.
Defined.

End FileParsingStatsRuns.
